(** * EthPingPong: a shallow embedding of the transaction lifecycle

    The script alternately sends a fixed amount between two wallets.  This
    development embeds [get_initial_nonces], [compute_fee_values],
    [build_and_send] and the body of [main_loop] of [EthPingPong.py] and
    proves properties of the nonce bookkeeping, the fee and gas arithmetic,
    the error classification and the alternation.

    Modelling choices
    - Python [int] is [Z].  The two float products of the script
      ([estimated * 1.1] and [base_fee * 2.5]) are IEEE binary64 products;
      they are computed exactly on [Z] in [Module PyFloat].
    - [str] is [string]; error texts are taken to be ASCII, and [str.lower]
      acts on the letters A-Z.
    - The global dict [nonces] is a [gmap string Z] inside the program
      state, next to the chronological list of observable events: the calls
      to the node and to the signer with their arguments, and the lines
      written to stdout.
    - The JSON-RPC node is a record of functions; one record describes the
      node as it answers during one cycle (every endpoint is queried at
      most once per call of [build_and_send]), and a run of the loop takes
      one record per cycle.
    - Exceptions are values of [exn], all of them subclasses of [Exception];
      a computation returns a [result] together with the state reached,
      since Python keeps the mutations made before a raise.  An interrupt
      from the keyboard is outside the model.
    - [while True] is run for as many cycles as there are node records; the
      random delay and [time.sleep] are observed as events without a
      duration. *)

From Stdlib Require Import ZArith Lia Ascii String.
From stdpp Require Import gmap strings list fin_maps.

Local Open Scope Z_scope.

(** ** Exceptions and results *)

Inductive exn_class :=
| TimeExhausted   (* web3.exceptions.TimeExhausted *)
| KeyError
| OverflowError
| OtherException. (* any other subclass of Exception *)

Record exn := { exn_cls : exn_class; exn_str : string }.

Inductive result (A : Type) :=
| Ok (a : A)
| Raise (e : exn).
Arguments Ok {A} a.
Arguments Raise {A} e.

(** ** Python floats on integers *)

Module PyFloat.

(** A binary64 value that is not an infinity is [m * 2^e] with
    [|m| < 2^53].  Every float the script forms is an integer, one of the
    constants [1.1] and [2.5], or a product of the two kinds, so
    subnormals never arise and the exponent only matters for overflow. *)
Inductive float :=
| Finite (m e : Z)
| Infinity.

(** [a / 2^s] rounded to the nearest integer, ties to even ([0 <= a], [0 < s]). *)
Definition round_nearest_even (a s : Z) : Z :=
  let q := a / 2 ^ s in
  let r := a mod 2 ^ s in
  let h := 2 ^ (s - 1) in
  if r <? h then q
  else if h <? r then q + 1
  else if Z.even q then q else q + 1.

(** Round [m * 2^e] to 53 significant bits. *)
Definition round53 (m e : Z) : Z * Z :=
  let a := Z.abs m in
  let s := Z.log2 a + 1 - 53 in
  if s <=? 0 then (m, e)
  else (Z.sgn m * round_nearest_even a s, e + s).

(** The rounded magnitude reaches [2^1024]. *)
Definition overflows (m e : Z) : bool :=
  if m =? 0 then false else 1024 <=? Z.log2 (Z.abs m) + e.

(** Conversion of an [int] operand to [float]; raises OverflowError. *)
Definition of_int (n : Z) : result float :=
  let '(m, e) := round53 n 0 in
  if overflows m e
  then Raise {| exn_cls := OverflowError;
                exn_str := "int too large to convert to float" |}
  else Ok (Finite m e).

(** Float product of finite operands: an overflow gives an infinity. *)
Definition mul (x y : float) : float :=
  match x, y with
  | Finite m1 e1, Finite m2 e2 =>
      let '(m, e) := round53 (m1 * m2) (e1 + e2) in
      if overflows m e then Infinity else Finite m e
  | _, _ => Infinity
  end.

(** [math.floor]. *)
Definition floor (x : float) : result Z :=
  match x with
  | Finite m e => Ok (Z.shiftl m e)
  | Infinity => Raise {| exn_cls := OverflowError;
                         exn_str := "cannot convert float infinity to integer" |}
  end.

(** [int(x)]: truncation toward zero. *)
Definition to_int (x : float) : result Z :=
  match x with
  | Finite m e => Ok (if 0 <=? e then m * 2 ^ e else Z.quot m (2 ^ (- e)))
  | Infinity => Raise {| exn_cls := OverflowError;
                         exn_str := "cannot convert float infinity to integer" |}
  end.

(** The literals [1.1] (0x3FF199999999999A) and [2.5]. *)
Definition f1_1 : float := Finite 4953959590107546 (-52).
Definition f2_5 : float := Finite 5 (-1).

(** [n * c] for an [int] [n] and a float constant [c]. *)
Definition int_mul (n : Z) (c : float) : result float :=
  match of_int n with
  | Ok x => Ok (mul x c)
  | Raise e => Raise e
  end.

End PyFloat.

(** [math.floor(estimated * 1.1)] *)
Definition floor_times_1_1 (estimated : Z) : result Z :=
  match PyFloat.int_mul estimated PyFloat.f1_1 with
  | Ok x => PyFloat.floor x
  | Raise e => Raise e
  end.

(** [int(base_fee * 2.5)] *)
Definition int_times_2_5 (base_fee : Z) : result Z :=
  match PyFloat.int_mul base_fee PyFloat.f2_5 with
  | Ok x => PyFloat.to_int x
  | Raise e => Raise e
  end.

(** ** Strings: [str.lower] and the [in] operator *)

Definition lower_ascii (c : ascii) : ascii :=
  let n := nat_of_ascii c in
  if ((65 <=? n) && (n <=? 90))%nat then ascii_of_nat (n + 32) else c.

Fixpoint lower (s : string) : string :=
  match s with
  | EmptyString => EmptyString
  | String c s' => String (lower_ascii c) (lower s')
  end.

(** [contains sub s] is Python's [sub in s]. *)
Fixpoint contains (sub s : string) : bool :=
  String.prefix sub s ||
  match s with
  | EmptyString => false
  | String _ s' => contains sub s'
  end.


(** The test of line 118 on [str(e)]. *)
Definition is_nonce_conflict (errstr : string) : bool :=
  contains "nonce" (lower errstr)
  || contains "replacement transaction underpriced" (lower errstr)
  || contains "already known" (lower errstr).

(** ** Data *)

Definition address := string.
Definition private_key := string.

(** [eth_account]'s LocalAccount: [.address] and [.key]. *)
Record account := { acct_address : address; acct_key : private_key }.

(** The dict returned by [compute_fee_values]. *)
Inductive fee_vals :=
| Eip1559 (maxPriorityFeePerGas maxFeePerGas : Z)
| Legacy (gasPrice : Z).

(** [{**tx_base, "from": from_acct.address}], the argument of [estimate_gas]. *)
Record call_request := {
  call_to : address;
  call_value : Z;
  call_nonce : Z;
  call_chainId : Z;
  call_from : address
}.

(** [tx = {**tx_base, **fee_vals}] with [tx_base["gas"]] set. *)
Record transaction := {
  tx_to : address;
  tx_value : Z;
  tx_nonce : Z;
  tx_chainId : Z;
  tx_gas : Z;
  tx_fee : fee_vals
}.

(** The latest block, as far as the script reads it. *)
Record block := { baseFeePerGas : option Z }.

Record receipt := { blockNumber : Z; status : Z }.

(** ** Observable events, in the order of the source *)

Inductive line :=
| Gas_estimate_failed (e : exn)                                   (* line 89 *)
| Tx_submitted (tx_hash : string) (from to : address) (nonce gas : Z) (* line 102 *)
| Confirmed (block_number status : Z)                             (* line 110 *)
| Receipt_timeout                                                 (* line 112 *)
| Send_error (errstr : string)                                    (* line 117 *)
| Nonce_reset (addr : address) (current : Z)                      (* line 122 *)
| Nonce_refetch_failed (e : exn)                                  (* line 125 *)
| Routine_exception (e : exn)                                     (* line 146 *)
| Waiting.                                                        (* line 148 *)

Inductive event :=
| Get_transaction_count (addr : address) (block_id : string)
| Get_block (block_id : string)
| Max_priority_fee
| Gas_price
| Chain_id
| Estimate_gas (c : call_request)
| Sign_transaction (t : transaction) (key : private_key)
| Send_raw_transaction (raw : string)
| Wait_for_transaction_receipt (tx_hash : string) (timeout poll_latency : Z)
| Printed (l : line)
| Sleep.

(** ** Program state and the monad of effects *)

Record state := {
  nonces : gmap string Z;
  out : list event
}.

Definition M (A : Type) : Type := state -> result A * state.

Definition ret {A} (a : A) : M A := fun s => (Ok a, s).

Definition bind {A B} (m : M A) (k : A -> M B) : M B :=
  fun s =>
    match m s with
    | (Ok a, s') => k a s'
    | (Raise e, s') => (Raise e, s')
    end.

Definition lift {A} (r : result A) : M A := fun s => (r, s).

Definition raise {A} (e : exn) : M A := lift (Raise e).

(** [try: body except Exception as e: handler e] *)
Definition try_except {A} (body : M A) (handler : exn -> M A) : M A :=
  fun s =>
    match body s with
    | (Ok a, s') => (Ok a, s')
    | (Raise e, s') => handler e s'
    end.

Notation "x <- m ;; k" := (bind m (fun x => k))
  (at level 100, m at next level, right associativity).
Notation "m ;;; k" := (bind m (fun _ => k))
  (at level 100, right associativity).

Definition emit (ev : event) : M unit :=
  fun s => (Ok tt, {| nonces := nonces s; out := out s ++ [ev] |}).

Definition print (l : line) : M unit := emit (Printed l).

(** A call to a collaborator: the call is observed, then it answers. *)
Definition call {A} (ev : event) (answer : result A) : M A :=
  emit ev ;;; lift answer.

(** [KeyError(k)]; its text is the repr of the key. *)
Definition key_error (k : string) : exn :=
  {| exn_cls := KeyError; exn_str := String.append "'" (String.append k "'") |}.

(** [nonces[k]] *)
Definition nonces_get (k : string) : M Z :=
  fun s =>
    match nonces s !! k with
    | Some n => (Ok n, s)
    | None => (Raise (key_error k), s)
    end.

(** [nonces[k] = v] *)
Definition nonces_set (k : string) (v : Z) : M unit :=
  fun s => (Ok tt, {| nonces := <[k := v]> (nonces s); out := out s |}).

(** ** Collaborators *)

(** The node behind [w3.eth], as it answers during one cycle. *)
Record Node := {
  get_transaction_count : address -> string -> result Z;
  get_block : string -> result block;
  max_priority_fee : result Z;
  gas_price : result Z;
  chain_id : result Z;
  estimate_gas : call_request -> result Z;
  send_raw_transaction : string -> result string;
  wait_for_transaction_receipt : string -> Z -> Z -> result receipt
}.

(** What is fixed when the module is loaded. *)
Record Config := {
  acct_a : account;
  acct_b : account;
  (** [w3.to_wei(AMOUNT_ETH, "ether")] *)
  amount_wei : result Z;
  WAIT_FOR_CONFIRMATIONS : Z;
  (** [Account.sign_transaction(tx, key).raw_transaction] *)
  sign_transaction : transaction -> private_key -> result string
}.

(** [w3.to_wei(2, "gwei")] *)
Definition two_gwei : Z := 2000000000.

Section Program.

Variable cfg : Config.

(** ** [get_initial_nonces] (lines 41-44) *)
Definition get_initial_nonces (w3 : Node) : M (gmap string Z) :=
  na <- call (Get_transaction_count (acct_address (acct_a cfg)) "pending")
             (get_transaction_count w3 (acct_address (acct_a cfg)) "pending") ;;
  nb <- call (Get_transaction_count (acct_address (acct_b cfg)) "pending")
             (get_transaction_count w3 (acct_address (acct_b cfg)) "pending") ;;
  ret (<["A" := na]> (<["B" := nb]> ∅)).

(** ** [compute_fee_values] (lines 49-71) *)
Definition compute_fee_values (w3 : Node) : M fee_vals :=
  latest <- call (Get_block "latest") (get_block w3 "latest") ;;
  match baseFeePerGas latest with
  | Some base_fee =>
      priority <- try_except
                    (call Max_priority_fee (max_priority_fee w3))
                    (fun _ => ret two_gwei) ;;
      scaled <- lift (int_times_2_5 base_fee) ;;
      let max_fee := scaled + priority in
      ret (Eip1559 priority max_fee)
  | None =>
      gp <- call Gas_price (gas_price w3) ;;
      ret (Legacy gp)
  end.

(** ** [build_and_send] (lines 73-126) *)

(** Lines 84-90: the gas limit. *)
Definition gas_limit_for (w3 : Node) (req : call_request) : M Z :=
  try_except
    (estimated <- call (Estimate_gas req) (estimate_gas w3 req) ;;
     lift (floor_times_1_1 estimated))
    (fun e => print (Gas_estimate_failed e) ;;; ret 21000).

(** Lines 75-99: build the transaction and sign it. *)
Definition build_and_sign (w3 : Node) (from_acct : account)
    (to_addr : address) (nonce_key : string) : M (transaction * string) :=
  amount <- lift (amount_wei cfg) ;;
  nonce <- nonces_get nonce_key ;;
  cid <- call Chain_id (chain_id w3) ;;
  gas_limit <- gas_limit_for w3
    {| call_to := to_addr; call_value := amount; call_nonce := nonce;
       call_chainId := cid; call_from := acct_address from_acct |} ;;
  fee <- compute_fee_values w3 ;;
  let tx := {| tx_to := to_addr; tx_value := amount; tx_nonce := nonce;
               tx_chainId := cid; tx_gas := gas_limit; tx_fee := fee |} in
  signed <- call (Sign_transaction tx (acct_key from_acct))
                 (sign_transaction cfg tx (acct_key from_acct)) ;;
  ret (tx, signed).

(** Lines 107-112: the optional wait for the receipt. *)
Definition wait_for_receipt (w3 : Node) (tx_hash : string) : M unit :=
  if 0 <? WAIT_FOR_CONFIRMATIONS cfg then
    try_except
      (r <- call (Wait_for_transaction_receipt tx_hash 120 2)
                 (wait_for_transaction_receipt w3 tx_hash 120 2) ;;
       print (Confirmed (blockNumber r) (status r)))
      (fun e =>
         match exn_cls e with
         | TimeExhausted => print Receipt_timeout
         | _ => raise e
         end)
  else ret tt.

(** Lines 114-126: the handler of a failed submission. *)
Definition on_send_error (w3 : Node) (from_acct : account)
    (nonce_key : string) (e : exn) : M (option string) :=
  let errstr := exn_str e in
  print (Send_error errstr) ;;;
  (if is_nonce_conflict errstr then
     try_except
       (current <- call (Get_transaction_count (acct_address from_acct) "pending")
                        (get_transaction_count w3 (acct_address from_acct) "pending") ;;
        print (Nonce_reset (acct_address from_acct) current) ;;;
        nonces_set nonce_key current)
       (fun ee => print (Nonce_refetch_failed ee))
   else ret tt) ;;;
  ret None.

(** Lines 100-126: submit the signed transaction. *)
Definition send (w3 : Node) (from_acct : account) (to_addr : address)
    (nonce_key : string) (gas_limit : Z) (raw : string) : M (option string) :=
  try_except
    (tx_hash <- call (Send_raw_transaction raw) (send_raw_transaction w3 raw) ;;
     shown <- nonces_get nonce_key ;;
     print (Tx_submitted tx_hash (acct_address from_acct) to_addr shown gas_limit) ;;;
     n <- nonces_get nonce_key ;;
     nonces_set nonce_key (n + 1) ;;;
     wait_for_receipt w3 tx_hash ;;;
     ret (Some tx_hash))
    (on_send_error w3 from_acct nonce_key).

Definition build_and_send (w3 : Node) (from_acct : account)
    (to_addr : address) (nonce_key : string) : M (option string) :=
  ts <- build_and_sign w3 from_acct to_addr nonce_key ;;
  send w3 from_acct to_addr nonce_key (tx_gas (fst ts)) (snd ts).

(** ** [main_loop] (lines 131-150) *)

(** The choice of lines 134-141. *)
Definition direction (turn : Z) : account * address * string :=
  if turn mod 2 =? 0
  then (acct_a cfg, acct_address (acct_b cfg), "A")
  else (acct_b cfg, acct_address (acct_a cfg), "B").

(** One pass through the body of [while True]; the random delay is
    observed as [Waiting] and [Sleep] without its duration. *)
Definition main_loop_body (w3 : Node) (turn : Z) : M Z :=
  let '(send_from, to, nkey) := direction turn in
  try_except
    (build_and_send w3 send_from to nkey ;;; ret tt)
    (fun e => print (Routine_exception e)) ;;;
  print Waiting ;;;
  emit Sleep ;;;
  ret (turn + 1).

(** The loop run against the successive answers of the node, one
    [Node] per cycle; it stops when they are used up. *)
Fixpoint main_loop_from (w3s : list Node) (turn : Z) (s : state) : Z * state :=
  match w3s with
  | [] => (turn, s)
  | w3 :: rest =>
      match main_loop_body w3 turn s with
      | (Ok turn', s') => main_loop_from rest turn' s'
      | (Raise _, s') => (turn, s')
      end
  end.

(** [turn = 0] on entry. *)
Definition main_loop (w3s : list Node) (s : state) : Z * state :=
  main_loop_from w3s 0 s.

End Program.

(** ** Start of the process (line 46): [nonces = get_initial_nonces()] *)

Definition startup (cfg : Config) (w3 : Node) : M unit :=
  d <- get_initial_nonces cfg w3 ;;
  fun s => (Ok tt, {| nonces := d; out := out s |}).

(** The process: the module is loaded against [w3_0], then the loop runs
    against one [Node] per cycle.  A failure before the loop ends the
    process. *)
Definition run (cfg : Config) (w3_0 : Node) (w3s : list Node) : result Z * state :=
  match startup cfg w3_0 {| nonces := ∅; out := [] |} with
  | (Ok _, s) => let '(turn, s') := main_loop cfg w3s s in (Ok turn, s')
  | (Raise e, s) => (Raise e, s)
  end.

(** ** Reading the event list *)

(** [s] after the events [evs] were observed. *)
Definition logged (s : state) (evs : list event) : state :=
  {| nonces := nonces s; out := out s ++ evs |}.

(** [s] after [nonces[k] = v]. *)
Definition stored (s : state) (k : string) (v : Z) : state :=
  {| nonces := <[k := v]> (nonces s); out := out s |}.

(** The events a cycle appends to the list. *)
Definition events_since (s s' : state) (new : list event) : Prop :=
  out s' = out s ++ new.

(** An accepted broadcast of [addr] with sequence number [n] (line 102). *)
Definition accepted (addr : address) (n : Z) (ev : event) : Prop :=
  exists tx_hash to gas, ev = Printed (Tx_submitted tx_hash addr to n gas).

(** No counter of [addr] is overwritten from the network in [l] (line 123). *)
Definition no_reset (addr : address) (l : list event) : Prop :=
  forall current, Printed (Nonce_reset addr current) ∉ l.

Definition is_submitted (ev : event) : bool :=
  match ev with Printed (Tx_submitted _ _ _ _ _) => true | _ => false end.

Definition is_reset (ev : event) : bool :=
  match ev with Printed (Nonce_reset _ _) => true | _ => false end.

Definition is_sign (ev : event) : bool :=
  match ev with Sign_transaction _ _ => true | _ => false end.

Definition is_send_raw (ev : event) : bool :=
  match ev with Send_raw_transaction _ => true | _ => false end.

Definition is_wait (ev : event) : bool :=
  match ev with Wait_for_transaction_receipt _ _ _ => true | _ => false end.

Definition is_count_query (ev : event) : bool :=
  match ev with Get_transaction_count _ _ => true | _ => false end.

(** Neither an accepted broadcast nor a reset of a counter. *)
Definition quiet (ev : event) : bool := negb (is_submitted ev) && negb (is_reset ev).

(** [n] is the number of an accepted broadcast of [addr] in [l] with no
    reset of [addr] after it. *)
Definition live (addr : address) (n : Z) (l : list event) : Prop :=
  exists t1 ev t2, l = t1 ++ ev :: t2 /\ accepted addr n ev /\ no_reset addr t2.

(** What one call of [build_and_send] for the account at [addr] with
    nonce key [k] does to the counters, read off the events it appends. *)
Inductive cycle_effect (addr : address) (k : string) (s s' : state) : Prop :=
| Effect_none new :
    events_since s s' new ->
    forallb quiet new = true ->
    nonces s' = nonces s ->
    cycle_effect addr k s s'
| Effect_reset pre current post :
    events_since s s' (pre ++ Printed (Nonce_reset addr current) :: post) ->
    forallb quiet pre = true -> forallb quiet post = true ->
    nonces s' = <[k := current]> (nonces s) ->
    cycle_effect addr k s s'
| Effect_advance pre ev n post :
    events_since s s' (pre ++ ev :: post) ->
    accepted addr n ev ->
    forallb quiet pre = true -> forallb quiet post = true ->
    nonces s !! k = Some n ->
    nonces s' = <[k := n + 1]> (nonces s) ->
    cycle_effect addr k s s'
| Effect_advance_reset pre ev n mid current post :
    events_since s s' (pre ++ ev :: mid ++ Printed (Nonce_reset addr current) :: post) ->
    accepted addr n ev ->
    forallb quiet pre = true -> forallb quiet mid = true -> forallb quiet post = true ->
    nonces s !! k = Some n ->
    nonces s' = <[k := current]> (nonces s) ->
    cycle_effect addr k s s'.

(** The events of lines 75-99: no broadcast, no wait, no query of a
    transaction count, no accepted broadcast and no reset. *)
Definition is_preparation (ev : event) : bool :=
  quiet ev && negb (is_send_raw ev) && negb (is_wait ev) && negb (is_count_query ev).

(** The events of the two estimators (lines 84-95): as above, and no signature. *)
Definition is_estimation (ev : event) : bool :=
  is_preparation ev && negb (is_sign ev).


(** The accepted broadcasts of an account carry increasing numbers as long
    as its counter is not reset in between. *)
Definition increasing (l : list event) : Prop :=
  forall t1 ev t2 addr n,
    l = t1 ++ ev :: t2 -> accepted addr n ev ->
    forall n1, live addr n1 t1 -> n1 < n.

(** The account at [addr] is the one whose counter is stored under [k]. *)
Definition paired (cfg : Config) (addr : address) (k : string) : Prop :=
  (addr = acct_address (acct_a cfg) /\ k = "A") \/
  (addr = acct_address (acct_b cfg) /\ k = "B").

(** Every live accepted number is below the counter of its account. *)
Definition counters_above (cfg : Config) (s : state) : Prop :=
  forall addr n,
    live addr n (out s) ->
    exists k m, paired cfg addr k /\ nonces s !! k = Some m /\ n < m.

(** ** Concrete collaborators, used to run the embedding *)

Module Scenario.

Definition alice : account := {| acct_address := "0xA11CE"; acct_key := "key-a" |}.
Definition bob : account := {| acct_address := "0xB0B"; acct_key := "key-b" |}.

(** A configuration with the two wallets, 0.01 ether and a signer that
    always succeeds. *)
Definition config (wait : Z) : Config :=
  {| acct_a := alice;
     acct_b := bob;
     amount_wei := Ok 10000000000000000;
     WAIT_FOR_CONFIRMATIONS := wait;
     sign_transaction := fun _ _ => Ok "0xf86b" |}.

Definition rpc_error (msg : string) : exn :=
  {| exn_cls := OtherException; exn_str := msg |}.

Definition time_exhausted : exn :=
  {| exn_cls := TimeExhausted;
     exn_str := "Transaction is not in the chain after 120 seconds" |}.

(** A node described by its answers. *)
Definition node (count : result Z) (latest : result block)
    (priority price estimate : result Z) (sent : result string)
    (waited : result receipt) : Node :=
  {| get_transaction_count := fun _ _ => count;
     get_block := fun _ => latest;
     max_priority_fee := priority;
     gas_price := price;
     chain_id := Ok 1;
     estimate_gas := fun _ => estimate;
     send_raw_transaction := fun _ => sent;
     wait_for_transaction_receipt := fun _ _ _ => waited |}.

Definition mined : result receipt := Ok {| blockNumber := 19000000; status := 1 |}.

(** Base fee 100, recommended priority fee 10, estimate 100000; the
    broadcast is accepted and the receipt arrives. *)
Definition healthy : Node :=
  node (Ok 7) (Ok {| baseFeePerGas := Some 100 |}) (Ok 10) (Ok 1) (Ok 100000)
       (Ok "0xabc") mined.

(** The same node refusing the broadcast with [msg]. *)
Definition refusing (msg : string) (count : result Z) : Node :=
  node count (Ok {| baseFeePerGas := Some 100 |}) (Ok 10) (Ok 1) (Ok 100000)
       (Raise (rpc_error msg)) mined.

(** The same node whose receipt wait raises [e]. *)
Definition wait_raising (e : exn) (count : result Z) : Node :=
  node count (Ok {| baseFeePerGas := Some 100 |}) (Ok 10) (Ok 1) (Ok 100000)
       (Ok "0xabc") (Raise e).

(** A legacy network: the latest block has no base fee. *)
Definition legacy : Node :=
  node (Ok 7) (Ok {| baseFeePerGas := None |}) (Ok 10) (Ok 30) (Ok 100000)
       (Ok "0xabc") mined.

(** The query of the latest block raises. *)
Definition fee_down : Node :=
  node (Ok 7) (Raise (rpc_error "connection reset")) (Ok 10) (Ok 1) (Ok 100000)
       (Ok "0xabc") mined.

(** A base fee past the 53 bits of a float significand. *)
Definition huge_base_fee : Node :=
  node (Ok 7) (Ok {| baseFeePerGas := Some 1801439850948199 |}) (Ok 10) (Ok 1)
       (Ok 100000) (Ok "0xabc") mined.

(** A base fee that no float can hold. *)
Definition absurd_base_fee : Node :=
  node (Ok 7) (Ok {| baseFeePerGas := Some (2 ^ 1024) |}) (Ok 10) (Ok 1)
       (Ok 100000) (Ok "0xabc") mined.

(** An estimate that no float can hold. *)
Definition huge_estimate : Node :=
  node (Ok 7) (Ok {| baseFeePerGas := Some 100 |}) (Ok 10) (Ok 1) (Ok (2 ^ 1024))
       (Ok "0xabc") mined.

Definition request : call_request :=
  {| call_to := acct_address bob; call_value := 10000000000000000;
     call_nonce := 7; call_chainId := 1; call_from := acct_address alice |}.

(** The counters after a start against [healthy]. *)
Definition started : state :=
  {| nonces := <["A" := 7]> (<["B" := 7]> ∅); out := [] |}.

End Scenario.

(** ** Loading the module (lines 17-47) *)

(** The variables read with [os.getenv]; [None] is an unset variable. *)
Record Environ := {
  env_RPC_URL : option string;
  env_PRIVATE_KEY_A : option string;
  env_PRIVATE_KEY_B : option string;
  env_AMOUNT_ETH : option string;
  env_MIN_DELAY_SEC : option string;
  env_MAX_DELAY_SEC : option string;
  env_WAIT_FOR_CONFIRMATIONS : option string
}.

(** The library functions the module-level code calls. *)
Record Library := {
  (** [float(s)], as far as it matters here: whether it raises *)
  float_of_str : string -> result unit;
  (** [int(s)] *)
  int_of_str : string -> result Z;
  (** [Web3(Web3.HTTPProvider(url)).is_connected()] *)
  is_connected : string -> bool;
  (** [Account.from_key(k)] *)
  from_key : string -> result account;
  (** [w3.to_wei(s, "ether")] *)
  to_wei_ether : string -> result Z;
  (** [Account.sign_transaction(tx, key).raw_transaction] *)
  lib_sign_transaction : transaction -> private_key -> result string
}.

(** [os.getenv(name, default)] *)
Definition getenv_or (v : option string) (default : string) : string :=
  match v with Some s => s | None => default end.

(** [not v] for a value of [os.getenv]: unset or empty. *)
Definition is_falsy (v : option string) : bool :=
  match v with
  | None => true
  | Some EmptyString => true
  | Some (String _ _) => false
  end.

Inductive exit_message :=
| Missing_settings   (* line 28 *)
| Not_connected.     (* line 32 *)

(** How the module-level code ends: [SystemExit], an exception nobody
    catches, or the state in which [main_loop] is entered. *)
Inductive load_outcome :=
| System_exit (m : exit_message)
| Uncaught (e : exn)
| Loaded (cfg : Config) (s : state).

(** Lines 19-47, in the order of the source; the banner lines of 36-38 and
    47 are not observed. *)
Definition load_module (env : Environ) (lib : Library) (w3 : Node) : load_outcome :=
  match float_of_str lib (getenv_or (env_MIN_DELAY_SEC env) "1") with
  | Raise e => Uncaught e
  | Ok _ =>
  match float_of_str lib (getenv_or (env_MAX_DELAY_SEC env) "30") with
  | Raise e => Uncaught e
  | Ok _ =>
  match int_of_str lib (getenv_or (env_WAIT_FOR_CONFIRMATIONS env) "1") with
  | Raise e => Uncaught e
  | Ok wait =>
  match env_RPC_URL env, env_PRIVATE_KEY_A env, env_PRIVATE_KEY_B env with
  | Some url, Some pk_a, Some pk_b =>
      if is_falsy (Some url) || is_falsy (Some pk_a) || is_falsy (Some pk_b)
      then System_exit Missing_settings
      else if negb (is_connected lib url) then System_exit Not_connected
      else
        match from_key lib pk_a with
        | Raise e => Uncaught e
        | Ok a =>
        match from_key lib pk_b with
        | Raise e => Uncaught e
        | Ok b =>
            let cfg :=
              {| acct_a := a;
                 acct_b := b;
                 amount_wei := to_wei_ether lib (getenv_or (env_AMOUNT_ETH env) "0.01");
                 WAIT_FOR_CONFIRMATIONS := wait;
                 sign_transaction := lib_sign_transaction lib |} in
            match startup cfg w3 {| nonces := ∅; out := [] |} with
            | (Ok _, s) => Loaded cfg s
            | (Raise e, _) => Uncaught e
            end
        end
        end
  | _, _, _ => System_exit Missing_settings
  end
  end
  end
  end.

(** ** More readings of the event list *)


(** An accepted broadcast of the account at [addr]. *)
Definition is_accepted_of (addr : address) (ev : event) : bool :=
  match ev with
  | Printed (Tx_submitted _ a _ _ _) => String.eqb a addr
  | _ => false
  end.

(** The number of accepted broadcasts of [addr] in [l]. *)
Definition accepted_count (addr : address) (l : list event) : Z :=
  Z.of_nat (List.length (List.filter (is_accepted_of addr) l)).

(** Without a reset of [addr], its counter is [start] plus the number of
    its accepted broadcasts. *)
Definition counter_accounts (addr : address) (k : string) (start : Z) (s : state) : Prop :=
  no_reset addr (out s) ->
  nonces s !! k = Some (start + accepted_count addr (out s)).

(** A library and an environment to run [load_module]. *)
Module Launch.

Definition library (connected : bool) : Library :=
  {| float_of_str := fun _ => Ok tt;
     int_of_str := fun s => if String.eqb s "1" then Ok 1 else Ok 0;
     is_connected := fun _ => connected;
     from_key := fun key =>
       if String.eqb key "key-a" then Ok Scenario.alice
       else if String.eqb key "key-b" then Ok Scenario.bob
       else Raise (Scenario.rpc_error "invalid private key");
     to_wei_ether := fun _ => Ok 10000000000000000;
     lib_sign_transaction := fun _ _ => Ok "0xf86b" |}.

Definition environ (url : option string) : Environ :=
  {| env_RPC_URL := url;
     env_PRIVATE_KEY_A := Some "key-a";
     env_PRIVATE_KEY_B := Some "key-b";
     env_AMOUNT_ETH := None;
     env_MIN_DELAY_SEC := None;
     env_MAX_DELAY_SEC := None;
     env_WAIT_FOR_CONFIRMATIONS := None |}.

End Launch.

(** * Properties *)

(** ** Float arithmetic on the ranges where it is exact *)

Module PyFloatFacts.
Import PyFloat.

Lemma log2_below (x k : Z) : 0 <= x < 2 ^ k -> 0 < k -> Z.log2 x < k.
Proof.
  intros [H0 Hx] Hk.
  destruct (Z.eq_dec x 0) as [->|Hne]; [simpl; lia|].
  apply Z.log2_lt_pow2; lia.
Qed.

Lemma round_nearest_even_bounds (a s : Z) :
  a / 2 ^ s <= round_nearest_even a s <= a / 2 ^ s + 1.
Proof.
  unfold round_nearest_even.
  repeat match goal with |- context [if ?b then _ else _] => destruct b end; lia.
Qed.

Lemma round53_small (m e : Z) :
  0 <= m < 2 ^ 53 -> round53 m e = (m, e).
Proof.
  intros Hm. unfold round53.
  rewrite Z.abs_eq by lia.
  pose proof (log2_below m 53 Hm ltac:(lia)).
  destruct (Z.leb_spec (Z.log2 m + 1 - 53) 0); [reflexivity|lia].
Qed.

Lemma overflows_small (m e : Z) :
  0 <= m < 2 ^ 1000 -> e <= 0 -> overflows m e = false.
Proof.
  intros Hm He. unfold overflows.
  destruct (Z.eqb_spec m 0); [reflexivity|].
  rewrite Z.abs_eq by lia.
  pose proof (log2_below m 1000 Hm ltac:(lia)).
  apply Z.leb_gt. lia.
Qed.

Lemma of_int_small (n : Z) :
  0 <= n < 2 ^ 53 -> of_int n = Ok (Finite n 0).
Proof.
  intros Hn. unfold of_int. rewrite round53_small by assumption.
  rewrite overflows_small; [reflexivity| |lia].
  split; [lia|]. apply Z.lt_trans with (m := 2 ^ 53); [lia|reflexivity].
Qed.

End PyFloatFacts.

(** [int(base_fee * 2.5)] is [floor(5 * base_fee / 2)] while [5 * base_fee]
    fits the 53 bits of the significand. *)
Lemma int_times_2_5_exact (base_fee : Z) :
  0 <= base_fee -> 5 * base_fee < 2 ^ 53 ->
  int_times_2_5 base_fee = Ok (5 * base_fee / 2).
Proof.
  intros H0 H5.
  unfold int_times_2_5, PyFloat.int_mul.
  rewrite PyFloatFacts.of_int_small by lia.
  unfold PyFloat.f2_5, PyFloat.mul.
  rewrite PyFloatFacts.round53_small by lia.
  rewrite PyFloatFacts.overflows_small.
  - simpl. f_equal. rewrite Z.quot_div_nonneg by lia. f_equal. lia.
  - split; [lia|]. apply Z.lt_trans with (m := 2 ^ 53); [lia|reflexivity].
  - lia.
Qed.

(** [math.floor(estimated * 1.1)] is [floor(11 * estimated / 10)] for every
    estimate below [2^47]. *)
Lemma floor_times_1_1_exact (estimated : Z) :
  0 <= estimated < 2 ^ 47 ->
  floor_times_1_1 estimated = Ok (11 * estimated / 10).
Proof.
  intros He.
  assert (H47 : 2 ^ 47 = 140737488355328) by reflexivity.
  assert (H52 : 2 ^ 52 = 4503599627370496) by reflexivity.
  assert (H53 : 2 ^ 53 = 9007199254740992) by reflexivity.
  unfold floor_times_1_1, PyFloat.int_mul.
  rewrite PyFloatFacts.of_int_small by lia.
  unfold PyFloat.f1_1, PyFloat.mul.
  set (N := estimated * 4953959590107546).
  set (I := 11 * estimated / 10).
  assert (HI : 10 * I <= 11 * estimated < 10 * I + 10).
  { subst I. pose proof (Z.div_mod (11 * estimated) 10 ltac:(lia)).
    pose proof (Z.mod_pos_bound (11 * estimated) 10 ltac:(lia)). lia. }
  assert (HN : 0 <= N < 2 ^ 100).
  { subst N. split; [lia|].
    replace (2 ^ 100) with (2 ^ 47 * 2 ^ 53) by reflexivity.
    rewrite H47, H53. lia. }
  unfold PyFloat.round53. rewrite Z.abs_eq by lia.
  pose proof (PyFloatFacts.log2_below N 100 HN ltac:(lia)) as Hlog.
  pose proof (Z.log2_nonneg N) as Hlog0.
  set (s := Z.log2 N + 1 - 53) in *.
  destruct (Z.leb_spec s 0) as [Hs|Hs].
  - (* the product is exact *)
    rewrite PyFloatFacts.overflows_small.
    + simpl PyFloat.floor. f_equal.
      rewrite Z.shiftl_div_pow2 by lia. change (- (0 + -52)) with 52.
      symmetry. apply Z.div_unique with (r := N - 2 ^ 52 * I); [|lia].
      left. assert (N < 2 ^ 53).
      { destruct (Z.eq_dec N 0) as [->|]; [lia|].
        apply Z.log2_lt_pow2; lia. }
      subst N. rewrite H52. lia.
    + split; [lia|]. apply Z.lt_trans with (m := 2 ^ 100); [lia|reflexivity].
    + lia.
  - (* the product is rounded to 53 bits *)
    assert (HNpos : 0 < N).
    { destruct (Z.eq_dec N 0) as [HN0|]; [|lia]. subst s. rewrite HN0 in Hs.
      simpl in Hs. lia. }
    rewrite (Z.sgn_pos N) by lia. rewrite Z.mul_1_l.
    pose proof (PyFloatFacts.round_nearest_even_bounds N s) as Hq.
    set (q' := PyFloat.round_nearest_even N s) in *.
    set (P := 2 ^ s) in *.
    set (T := 2 ^ (52 - s)).
    assert (HP : 2 <= P <= 2 ^ 47).
    { subst P. split.
      - change 2 with (2 ^ 1) at 1. apply Z.pow_le_mono_r; lia.
      - apply Z.pow_le_mono_r; lia. }
    assert (HT : 0 < T) by (subst T; apply Z.pow_pos_nonneg; lia).
    assert (HPT : P * T = 2 ^ 52).
    { subst P T. rewrite <- Z.pow_add_r by lia. f_equal. lia. }
    assert (Hlow : I * T <= N / P).
    { apply Z.div_le_lower_bound; [lia|].
      replace (P * (I * T)) with (I * (P * T)) by ring.
      rewrite HPT, H52. subst N. lia. }
    assert (Hhigh : N / P < (I + 1) * T - 1).
    { apply Z.div_lt_upper_bound; [lia|].
      replace (P * ((I + 1) * T - 1)) with ((I + 1) * (P * T) - P) by ring.
      rewrite HPT, H52. subst N. lia. }
    assert (Hq0 : 0 <= N / P) by (apply Z.div_pos; lia).
    assert (Hqle : N / P <= N).
    { apply Z.div_le_upper_bound; [lia|]. nia. }
    rewrite PyFloatFacts.overflows_small.
    + simpl PyFloat.floor. f_equal.
      rewrite Z.shiftl_div_pow2 by lia.
      replace (- (0 + -52 + s)) with (52 - s) by lia. fold T.
      symmetry. apply Z.div_unique with (r := q' - T * I); [|lia].
      left. nia.
    + split; [lia|].
      apply Z.le_lt_trans with (m := N + 1); [lia|].
      apply Z.lt_le_trans with (m := 2 ^ 100 + 1); [lia|]. vm_compute. discriminate.
    + lia.
Qed.
(** ** The effects, step by step *)

Ltac unfold_m :=
  unfold bind, try_except, call, print, emit, raise, lift, ret,
         nonces_get, nonces_set, logged, stored in *.

Lemma logged_logged (s : state) (l1 l2 : list event) :
  logged (logged s l1) l2 = logged s (l1 ++ l2).
Proof. unfold logged. simpl. by rewrite <- app_assoc. Qed.

Lemma logged_nil (s : state) : logged s [] = s.
Proof. destruct s. unfold logged. simpl. by rewrite app_nil_r. Qed.

Section Steps.

Variable cfg : Config.
Variable w3 : Node.

Lemma compute_fee_values_eq (s : state) :
  compute_fee_values w3 s =
  match get_block w3 "latest" with
  | Raise e => (Raise e, logged s [Get_block "latest"])
  | Ok latest =>
      match baseFeePerGas latest with
      | Some base_fee =>
          let priority :=
            match max_priority_fee w3 with Ok p => p | Raise _ => two_gwei end in
          let s' := logged s [Get_block "latest"; Max_priority_fee] in
          match int_times_2_5 base_fee with
          | Ok scaled => (Ok (Eip1559 priority (scaled + priority)), s')
          | Raise e => (Raise e, s')
          end
      | None =>
          let s' := logged s [Get_block "latest"; Gas_price] in
          match gas_price w3 with
          | Ok gp => (Ok (Legacy gp), s')
          | Raise e => (Raise e, s')
          end
      end
  end.
Proof.
  unfold compute_fee_values. unfold_m. simpl.
  destruct (get_block w3 "latest") as [latest|e]; [|reflexivity].
  destruct (baseFeePerGas latest) as [base_fee|]; simpl; rewrite <- app_assoc; simpl.
  - destruct (max_priority_fee w3); simpl; destruct (int_times_2_5 base_fee); reflexivity.
  - destruct (gas_price w3); reflexivity.
Qed.

Lemma gas_limit_for_eq (req : call_request) (s : state) :
  gas_limit_for w3 req s =
  match estimate_gas w3 req with
  | Ok estimated =>
      match floor_times_1_1 estimated with
      | Ok g => (Ok g, logged s [Estimate_gas req])
      | Raise e => (Ok 21000, logged s [Estimate_gas req; Printed (Gas_estimate_failed e)])
      end
  | Raise e => (Ok 21000, logged s [Estimate_gas req; Printed (Gas_estimate_failed e)])
  end.
Proof.
  unfold gas_limit_for. unfold_m. simpl.
  destruct (estimate_gas w3 req) as [estimated|e]; simpl.
  - destruct (floor_times_1_1 estimated); simpl; [reflexivity|].
    by rewrite <- app_assoc.
  - by rewrite <- app_assoc.
Qed.

Lemma on_send_error_eq (from_acct : account) (k : string) (e : exn) (s : state) :
  on_send_error w3 from_acct k e s =
  (Ok None,
   if is_nonce_conflict (exn_str e) then
     match get_transaction_count w3 (acct_address from_acct) "pending" with
     | Ok current =>
         stored (logged s [Printed (Send_error (exn_str e));
                           Get_transaction_count (acct_address from_acct) "pending";
                           Printed (Nonce_reset (acct_address from_acct) current)])
                k current
     | Raise ee =>
         logged s [Printed (Send_error (exn_str e));
                   Get_transaction_count (acct_address from_acct) "pending";
                   Printed (Nonce_refetch_failed ee)]
     end
   else logged s [Printed (Send_error (exn_str e))]).
Proof.
  unfold on_send_error. unfold_m. simpl.
  destruct (is_nonce_conflict (exn_str e)); simpl; [|reflexivity].
  destruct (get_transaction_count w3 (acct_address from_acct) "pending"); simpl;
    repeat rewrite <- app_assoc; reflexivity.
Qed.

Lemma wait_for_receipt_eq (tx_hash : string) (s : state) :
  wait_for_receipt cfg w3 tx_hash s =
  if 0 <? WAIT_FOR_CONFIRMATIONS cfg then
    match wait_for_transaction_receipt w3 tx_hash 120 2 with
    | Ok r => (Ok tt, logged s [Wait_for_transaction_receipt tx_hash 120 2;
                                Printed (Confirmed (blockNumber r) (status r))])
    | Raise e =>
        match exn_cls e with
        | TimeExhausted =>
            (Ok tt, logged s [Wait_for_transaction_receipt tx_hash 120 2;
                              Printed Receipt_timeout])
        | _ => (Raise e, logged s [Wait_for_transaction_receipt tx_hash 120 2])
        end
    end
  else (Ok tt, s).
Proof.
  unfold wait_for_receipt. destruct (0 <? WAIT_FOR_CONFIRMATIONS cfg); [|reflexivity].
  unfold_m. simpl.
  destruct (wait_for_transaction_receipt w3 tx_hash 120 2) as [r|e]; simpl.
  - by rewrite <- app_assoc.
  - destruct (exn_cls e); simpl; try reflexivity. by rewrite <- app_assoc.
Qed.

(** A refused broadcast: lines 101 and 114-126. *)
Lemma send_refused (from_acct : account) (to_addr : address) (k : string)
    (gas : Z) (raw : string) (e : exn) (s : state) :
  send_raw_transaction w3 raw = Raise e ->
  send cfg w3 from_acct to_addr k gas raw s =
  on_send_error w3 from_acct k e (logged s [Send_raw_transaction raw]).
Proof.
  intros H. unfold send. unfold try_except at 1. unfold bind at 1.
  unfold call. unfold bind at 1. unfold emit, lift at 1. rewrite H. reflexivity.
Qed.

(** An accepted broadcast: lines 101-104, then the wait under the handler. *)
Lemma send_accepted (from_acct : account) (to_addr : address) (k : string)
    (gas : Z) (raw tx_hash : string) (n : Z) (s : state) :
  send_raw_transaction w3 raw = Ok tx_hash ->
  nonces s !! k = Some n ->
  send cfg w3 from_acct to_addr k gas raw s =
  try_except (wait_for_receipt cfg w3 tx_hash ;;; ret (Some tx_hash))
             (on_send_error w3 from_acct k)
             (stored (logged s [Send_raw_transaction raw;
                                Printed (Tx_submitted tx_hash (acct_address from_acct)
                                                    to_addr n gas)])
                     k (n + 1)).
Proof.
  intros H Hn. unfold send. unfold_m. simpl. rewrite H. simpl. rewrite Hn. simpl.
  rewrite Hn. rewrite <- app_assoc. reflexivity.
Qed.

End Steps.
Ltac destruct_inner :=
  match goal with
  | |- context [match ?x with _ => _ end] =>
      lazymatch x with
      | context [match _ with _ => _ end] => fail
      | _ => destruct x eqn:?; simpl
      end
  end.

Section Prepare.

Variable cfg : Config.
Variable w3 : Node.
Variables (from_acct : account) (to_addr : address) (k : string).

Lemma gas_limit_for_pure (req : call_request) (s s0 : state) :
  fst (gas_limit_for w3 req s) = fst (gas_limit_for w3 req s0).
Proof. rewrite !gas_limit_for_eq. repeat destruct_inner; reflexivity. Qed.

Lemma compute_fee_values_pure (s s0 : state) :
  fst (compute_fee_values w3 s) = fst (compute_fee_values w3 s0).
Proof. rewrite !compute_fee_values_eq. repeat destruct_inner; reflexivity. Qed.

(** The gas limit is always obtained. *)
Lemma gas_limit_for_total (req : call_request) (s : state) :
  exists g l,
    gas_limit_for w3 req s = (Ok g, logged s l) /\ forallb is_estimation l = true.
Proof.
  rewrite gas_limit_for_eq.
  repeat destruct_inner; do 2 eexists; (split; [reflexivity|reflexivity]).
Qed.

Lemma compute_fee_values_events (s : state) :
  exists l,
    snd (compute_fee_values w3 s) = logged s l /\ forallb is_estimation l = true.
Proof.
  rewrite compute_fee_values_eq.
  repeat destruct_inner; eexists; (split; [reflexivity|reflexivity]).
Qed.

(** Lines 75-99, one collaborator after the other. *)
Lemma build_and_sign_eq (s : state) :
  build_and_sign cfg w3 from_acct to_addr k s =
  match amount_wei cfg with
  | Raise e => (Raise e, s)
  | Ok amount =>
      match nonces s !! k with
      | None => (Raise (key_error k), s)
      | Some nonce =>
          match chain_id w3 with
          | Raise e => (Raise e, logged s [Chain_id])
          | Ok cid =>
              match gas_limit_for w3
                      {| call_to := to_addr; call_value := amount;
                         call_nonce := nonce; call_chainId := cid;
                         call_from := acct_address from_acct |}
                      (logged s [Chain_id]) with
              | (Raise e, s1) => (Raise e, s1)
              | (Ok gas_limit, s1) =>
                  match compute_fee_values w3 s1 with
                  | (Raise e, s2) => (Raise e, s2)
                  | (Ok fee, s2) =>
                      let tx := {| tx_to := to_addr; tx_value := amount;
                                   tx_nonce := nonce; tx_chainId := cid;
                                   tx_gas := gas_limit; tx_fee := fee |} in
                      let s3 := logged s2 [Sign_transaction tx (acct_key from_acct)] in
                      match sign_transaction cfg tx (acct_key from_acct) with
                      | Ok raw => (Ok (tx, raw), s3)
                      | Raise e => (Raise e, s3)
                      end
                  end
              end
          end
      end
  end.
Proof.
  unfold build_and_sign. unfold bind at 1. unfold lift at 1.
  destruct (amount_wei cfg) as [amount|]; [|reflexivity].
  unfold bind at 1. unfold nonces_get at 1.
  destruct (nonces s !! k) as [nonce|] eqn:En.
  2:{ reflexivity. }
  unfold bind at 1. unfold call at 1. unfold bind at 1. unfold emit at 1, lift at 1.
  fold (logged s [Chain_id]).
  destruct (chain_id w3) as [cid|]; [|reflexivity].
  unfold bind at 1.
  destruct (gas_limit_for _ _ _) as [[gas_limit|] s1]; [|reflexivity].
  unfold bind at 1.
  destruct (compute_fee_values _ _) as [[fee|] s2]; [|reflexivity].
  unfold bind at 1. unfold call at 1. unfold bind at 1. unfold emit at 1, lift at 1.
  simpl. fold (logged s2 [Sign_transaction
                            {| tx_to := to_addr; tx_value := amount; tx_nonce := nonce;
                               tx_chainId := cid; tx_gas := gas_limit; tx_fee := fee |}
                            (acct_key from_acct)]).
  destruct (sign_transaction cfg _ _); reflexivity.
Qed.


Lemma estimation_is_preparation (l : list event) :
  forallb is_estimation l = true -> forallb is_preparation l = true.
Proof.
  induction l as [|ev l IH]; [done|]. simpl.
  rewrite !andb_true_iff. unfold is_estimation at 1. rewrite andb_true_iff.
  intros [[H _] Hl]. auto.
Qed.

(** Lines 75-99 leave the counters alone and only prepare. *)
Lemma build_and_sign_events (s : state) :
  exists new,
    snd (build_and_sign cfg w3 from_acct to_addr k s) = logged s new /\
    forallb is_preparation new = true.
Proof.
  rewrite build_and_sign_eq.
  destruct (amount_wei cfg) as [amount|].
  2:{ exists []. by rewrite logged_nil. }
  destruct (nonces s !! k) as [nonce|].
  2:{ exists []. by rewrite logged_nil. }
  destruct (chain_id w3) as [cid|].
  2:{ by exists [Chain_id]. }
  match goal with |- context [gas_limit_for w3 ?r ?st] =>
    destruct (gas_limit_for_total r st) as (g & l1 & -> & Hl1) end.
  match goal with |- context [compute_fee_values w3 ?st] =>
    destruct (compute_fee_values_events st) as (l2 & Hs2 & Hl2);
    destruct (compute_fee_values w3 st) as [[fee|] s2] end;
    simpl in Hs2; subst s2.
  - exists ([Chain_id] ++ l1 ++ l2 ++
            [Sign_transaction {| tx_to := to_addr; tx_value := amount; tx_nonce := nonce;
                                 tx_chainId := cid; tx_gas := g; tx_fee := fee |}
                              (acct_key from_acct)]).
    split.
    + cbv zeta. destruct (sign_transaction cfg _ _); simpl; by rewrite !logged_logged.
    + rewrite !forallb_app, !(estimation_is_preparation _ Hl1),
        !(estimation_is_preparation _ Hl2). reflexivity.
  - exists ([Chain_id] ++ l1 ++ l2). split.
    + simpl. by rewrite !logged_logged.
    + rewrite !forallb_app, !(estimation_is_preparation _ Hl1),
        !(estimation_is_preparation _ Hl2). reflexivity.
Qed.

Lemma build_and_sign_frame (s : state) :
  nonces (snd (build_and_sign cfg w3 from_acct to_addr k s)) = nonces s.
Proof. destruct (build_and_sign_events s) as (new & -> & _). reflexivity. Qed.

(** The transaction that was signed: its fields are the arguments, the
    counter of [k], and what the two estimators returned; the signature
    is the last event. *)
Lemma build_and_sign_ok (s : state) (tx : transaction) (raw : string) :
  fst (build_and_sign cfg w3 from_acct to_addr k s) = Ok (tx, raw) ->
  amount_wei cfg = Ok (tx_value tx) /\
  nonces s !! k = Some (tx_nonce tx) /\
  chain_id w3 = Ok (tx_chainId tx) /\
  tx_to tx = to_addr /\
  (forall s0, fst (gas_limit_for w3
                     {| call_to := to_addr; call_value := tx_value tx;
                        call_nonce := tx_nonce tx; call_chainId := tx_chainId tx;
                        call_from := acct_address from_acct |} s0) = Ok (tx_gas tx)) /\
  (forall s0, fst (compute_fee_values w3 s0) = Ok (tx_fee tx)) /\
  sign_transaction cfg tx (acct_key from_acct) = Ok raw /\
  exists pre,
    snd (build_and_sign cfg w3 from_acct to_addr k s) =
      logged s (pre ++ [Sign_transaction tx (acct_key from_acct)]) /\
    forallb is_estimation pre = true.
Proof.
  rewrite build_and_sign_eq.
  destruct (amount_wei cfg) as [amount|]; [|discriminate].
  destruct (nonces s !! k) as [nonce|]; [|discriminate].
  destruct (chain_id w3) as [cid|]; [|discriminate].
  match goal with |- context [gas_limit_for w3 ?r ?st] =>
    pose proof (fun s0 => gas_limit_for_pure r s0 st) as Pg;
    destruct (gas_limit_for_total r st) as (g & l1 & Eg & Hl1) end.
  rewrite Eg in *. simpl in Pg.
  match goal with |- context [compute_fee_values w3 ?st] =>
    pose proof (fun s0 => compute_fee_values_pure s0 st) as Pf;
    destruct (compute_fee_values_events st) as (l2 & Hs2 & Hl2);
    destruct (compute_fee_values w3 st) as [[fee|] s2] end; [|discriminate].
  simpl in Hs2, Pf. subst s2.
  cbv zeta. destruct (sign_transaction cfg _ _) as [raw0|] eqn:Es; [|discriminate].
  simpl. intros H. injection H as <- <-. simpl.
  repeat split; try assumption; try reflexivity.
  exists ([Chain_id] ++ l1 ++ l2). split.
  - rewrite !logged_logged. by rewrite <- !app_assoc.
  - by rewrite !forallb_app, Hl1, Hl2.
Qed.


End Prepare.
(** ** Submission and one cycle *)

Section Submit.

Variable cfg : Config.
Variable w3 : Node.
Variables (from_acct : account) (to_addr : address) (k : string).

(** Lines 100-126 after an accepted broadcast, case by case. *)
Lemma send_accepted_eq (gas : Z) (raw tx_hash : string) (n : Z) (s : state) :
  send_raw_transaction w3 raw = Ok tx_hash ->
  nonces s !! k = Some n ->
  let s1 := stored (logged s [Send_raw_transaction raw;
                              Printed (Tx_submitted tx_hash (acct_address from_acct)
                                                  to_addr n gas)])
                   k (n + 1) in
  send cfg w3 from_acct to_addr k gas raw s =
  if 0 <? WAIT_FOR_CONFIRMATIONS cfg then
    match wait_for_transaction_receipt w3 tx_hash 120 2 with
    | Ok r =>
        (Ok (Some tx_hash),
         logged s1 [Wait_for_transaction_receipt tx_hash 120 2;
                    Printed (Confirmed (blockNumber r) (status r))])
    | Raise e =>
        match exn_cls e with
        | TimeExhausted =>
            (Ok (Some tx_hash),
             logged s1 [Wait_for_transaction_receipt tx_hash 120 2;
                        Printed Receipt_timeout])
        | _ =>
            on_send_error w3 from_acct k e
              (logged s1 [Wait_for_transaction_receipt tx_hash 120 2])
        end
    end
  else (Ok (Some tx_hash), s1).
Proof.
  intros H Hn s1. rewrite (send_accepted cfg w3 _ _ _ _ _ _ _ _ H Hn). fold s1.
  unfold try_except, bind. rewrite wait_for_receipt_eq.
  destruct (0 <? WAIT_FOR_CONFIRMATIONS cfg); [|reflexivity].
  destruct (wait_for_transaction_receipt w3 tx_hash 120 2) as [r|e]; [reflexivity|].
  destruct (exn_cls e); reflexivity.
Qed.

(** What a failed submission does to the counters. *)
Lemma on_send_error_effect (e : exn) (s : state) :
  let s' := snd (on_send_error w3 from_acct k e s) in
  (exists post, s' = logged s post /\ forallb quiet post = true) \/
  (exists pre current,
     s' = stored (logged s (pre ++ [Printed (Nonce_reset (acct_address from_acct) current)]))
                 k current /\
     forallb quiet pre = true).
Proof.
  rewrite on_send_error_eq. simpl.
  destruct (is_nonce_conflict (exn_str e)).
  - destruct (get_transaction_count w3 (acct_address from_acct) "pending") as [current|ee].
    + right. exists [Printed (Send_error (exn_str e));
                     Get_transaction_count (acct_address from_acct) "pending"], current.
      split; reflexivity.
    + left. eexists. split; reflexivity.
  - left. eexists. split; reflexivity.
Qed.

Lemma send_effect (gas : Z) (raw : string) (n : Z) (s : state) :
  nonces s !! k = Some n ->
  cycle_effect (acct_address from_acct) k s
               (snd (send cfg w3 from_acct to_addr k gas raw s)).
Proof.
  intros Hn.
  destruct (send_raw_transaction w3 raw) as [tx_hash|e] eqn:Hsend.
  - rewrite (send_accepted_eq gas raw tx_hash n s Hsend Hn). cbv zeta.
    set (sub := Printed (Tx_submitted tx_hash (acct_address from_acct) to_addr n gas)).
    assert (Hacc : accepted (acct_address from_acct) n sub) by (by do 3 eexists).
    assert (Hwait : forall e : exn,
      cycle_effect (acct_address from_acct) k s
        (snd (on_send_error w3 from_acct k e
           (logged (stored (logged s [Send_raw_transaction raw; sub]) k (n + 1))
                   [Wait_for_transaction_receipt tx_hash 120 2])))).
    { intros e.
      destruct (on_send_error_effect e
        (logged (stored (logged s [Send_raw_transaction raw; sub]) k (n + 1))
                [Wait_for_transaction_receipt tx_hash 120 2]))
        as [(post & -> & Hpost)|(pre & current & -> & Hpre)].
      - eapply (Effect_advance _ _ _ _ [Send_raw_transaction raw] sub n
                  (Wait_for_transaction_receipt tx_hash 120 2 :: post)); try done.
        unfold events_since. simpl. by rewrite <- !app_assoc.
      - eapply (Effect_advance_reset _ _ _ _ [Send_raw_transaction raw] sub n
                  (Wait_for_transaction_receipt tx_hash 120 2 :: pre) current []);
          try done.
        + unfold events_since. simpl. by rewrite <- !app_assoc.
        + simpl. by rewrite insert_insert_eq. }
    destruct (0 <? WAIT_FOR_CONFIRMATIONS cfg).
    + destruct (wait_for_transaction_receipt w3 tx_hash 120 2) as [r|e].
      * eapply (Effect_advance _ _ _ _ [Send_raw_transaction raw] sub n
                  [Wait_for_transaction_receipt tx_hash 120 2;
                   Printed (Confirmed (blockNumber r) (status r))]); try done.
        unfold events_since. simpl. by rewrite <- !app_assoc.
      * destruct (exn_cls e) eqn:Hcls; try apply Hwait.
        eapply (Effect_advance _ _ _ _ [Send_raw_transaction raw] sub n
                  [Wait_for_transaction_receipt tx_hash 120 2; Printed Receipt_timeout]);
          try done.
        unfold events_since. simpl. by rewrite <- !app_assoc.
    + eapply (Effect_advance _ _ _ _ [Send_raw_transaction raw] sub n []); try done.
  - rewrite (send_refused cfg w3 _ _ _ _ _ _ _ Hsend).
    destruct (on_send_error_effect e (logged s [Send_raw_transaction raw]))
      as [(post & -> & Hpost)|(pre & current & -> & Hpre)].
    + eapply (Effect_none _ _ _ _ (Send_raw_transaction raw :: post)); try done.
      unfold events_since. simpl. by rewrite <- !app_assoc.
    + eapply (Effect_reset _ _ _ _ (Send_raw_transaction raw :: pre) current []);
        try done.
      unfold events_since. simpl. by rewrite <- !app_assoc.
Qed.

End Submit.
Lemma preparation_is_quiet (l : list event) :
  forallb is_preparation l = true -> forallb quiet l = true.
Proof.
  induction l as [|ev l IH]; [done|]. simpl.
  rewrite !andb_true_iff. unfold is_preparation at 1. rewrite !andb_true_iff.
  intros [[[[H _] _] _] Hl]. auto.
Qed.

Lemma cycle_effect_prepend (addr : address) (k : string) (s s' : state) (l : list event) :
  forallb quiet l = true ->
  cycle_effect addr k (logged s l) s' -> cycle_effect addr k s s'.
Proof.
  intros Hl [new E Hq Hn|pre current post E Hpre Hpost Hn
            |pre ev n post E Hacc Hpre Hpost Hk Hn
            |pre ev n mid current post E Hacc Hpre Hmid Hpost Hk Hn];
    unfold events_since in E; simpl in *; rewrite <- app_assoc in E.
  - eapply (Effect_none _ _ _ _ (l ++ new)); [exact E| |done].
    by rewrite forallb_app, Hl, Hq.
  - eapply (Effect_reset _ _ _ _ (l ++ pre) current post); [|  |done|done].
    + unfold events_since. by rewrite E, <- app_assoc.
    + by rewrite forallb_app, Hl, Hpre.
  - eapply (Effect_advance _ _ _ _ (l ++ pre) ev n post); [|done| |done|done|done].
    + unfold events_since. by rewrite E, <- app_assoc.
    + by rewrite forallb_app, Hl, Hpre.
  - eapply (Effect_advance_reset _ _ _ _ (l ++ pre) ev n mid current post);
      [|done| |done|done|done|done].
    + unfold events_since. by rewrite E, <- app_assoc.
    + by rewrite forallb_app, Hl, Hpre.
Qed.

Lemma cycle_effect_append (addr : address) (k : string) (s s' : state) (l : list event) :
  forallb quiet l = true ->
  cycle_effect addr k s s' -> cycle_effect addr k s (logged s' l).
Proof.
  intros Hl [new E Hq Hn|pre current post E Hpre Hpost Hn
            |pre ev n post E Hacc Hpre Hpost Hk Hn
            |pre ev n mid current post E Hacc Hpre Hmid Hpost Hk Hn];
    unfold events_since in E.
  - eapply (Effect_none _ _ _ _ (new ++ l)); [|by rewrite forallb_app, Hl, Hq|done].
    unfold events_since. simpl. by rewrite E, <- app_assoc.
  - eapply (Effect_reset _ _ _ _ pre current (post ++ l));
      [|done|by rewrite forallb_app, Hl, Hpost|done].
    unfold events_since. simpl. rewrite E, <- !app_assoc. by simpl.
  - eapply (Effect_advance _ _ _ _ pre ev n (post ++ l));
      [|done|done|by rewrite forallb_app, Hl, Hpost|done|done].
    unfold events_since. simpl. rewrite E, <- !app_assoc. by simpl.
  - eapply (Effect_advance_reset _ _ _ _ pre ev n mid current (post ++ l));
      [|done|done|done|by rewrite forallb_app, Hl, Hpost|done|done].
    unfold events_since. simpl. rewrite E, <- !app_assoc. simpl.
    rewrite <- !app_assoc. by simpl.
Qed.

Section Cycle.

Variable cfg : Config.
Variable w3 : Node.

Lemma build_and_send_eq (from_acct : account) (to_addr : address) (k : string)
    (s : state) :
  build_and_send cfg w3 from_acct to_addr k s =
  match build_and_sign cfg w3 from_acct to_addr k s with
  | (Ok (tx, raw), s1) => send cfg w3 from_acct to_addr k (tx_gas tx) raw s1
  | (Raise e, s1) => (Raise e, s1)
  end.
Proof.
  unfold build_and_send, bind.
  destruct (build_and_sign cfg w3 from_acct to_addr k s) as [[[tx raw]|e] s1]; reflexivity.
Qed.

(** The submission phase never raises: the handler of line 114 catches. *)
Lemma send_returns (from_acct : account) (to_addr : address) (k : string)
    (gas : Z) (raw : string) (s : state) :
  exists r, fst (send cfg w3 from_acct to_addr k gas raw s) = Ok r.
Proof.
  unfold send, try_except.
  match goal with |- context [match ?b s with _ => _ end] => destruct (b s) as [[r|e] s1] end.
  - by exists r.
  - rewrite on_send_error_eq. by exists None.
Qed.

Lemma build_and_send_effect (from_acct : account) (to_addr : address) (k : string)
    (s : state) :
  cycle_effect (acct_address from_acct) k s
               (snd (build_and_send cfg w3 from_acct to_addr k s)).
Proof.
  rewrite build_and_send_eq.
  destruct (build_and_sign_events cfg w3 from_acct to_addr k s) as (new & Hs1 & Hnew).
  pose proof (build_and_sign_ok cfg w3 from_acct to_addr k s) as Hok.
  destruct (build_and_sign cfg w3 from_acct to_addr k s) as [[[tx raw]|e] s1];
    simpl in Hs1; subst s1.
  - destruct (Hok tx raw eq_refl) as (_ & Hn & _).
    apply (cycle_effect_prepend _ _ _ _ new); [by apply preparation_is_quiet|].
    by apply (send_effect cfg w3 from_acct to_addr k (tx_gas tx) raw (tx_nonce tx)).
  - eapply Effect_none; [reflexivity|by apply preparation_is_quiet|reflexivity].
Qed.

(** One pass through the loop body always completes and moves the
    counter of cycles to the next value. *)
Lemma main_loop_body_eq (turn : Z) (s : state) :
  main_loop_body cfg w3 turn s =
  let '(send_from, to, nkey) := direction cfg turn in
  let r := build_and_send cfg w3 send_from to nkey s in
  (Ok (turn + 1),
   logged (snd r)
          (match fst r with
           | Ok _ => []
           | Raise e => [Printed (Routine_exception e)]
           end ++ [Printed Waiting; Sleep])).
Proof.
  unfold main_loop_body. destruct (direction cfg turn) as [[send_from to] nkey].
  unfold_m. simpl.
  destruct (build_and_send cfg w3 send_from to nkey s) as [[r|e] s1]; simpl;
    rewrite <- ?app_assoc; reflexivity.
Qed.

Lemma main_loop_body_effect (turn : Z) (s : state) :
  let '(send_from, _, nkey) := direction cfg turn in
  cycle_effect (acct_address send_from) nkey s (snd (main_loop_body cfg w3 turn s)).
Proof.
  rewrite main_loop_body_eq.
  destruct (direction cfg turn) as [[send_from to] nkey]. simpl.
  apply cycle_effect_append; [|apply build_and_send_effect].
  by destruct (fst (build_and_send cfg w3 send_from to nkey s)).
Qed.

End Cycle.
(** ** Accepted broadcasts along the event list *)

Lemma app_eq_split (l1 l2 t1 t2 : list event) (ev : event) :
  l1 ++ l2 = t1 ++ ev :: t2 ->
  (exists m, l1 = t1 ++ ev :: m /\ t2 = m ++ l2) \/
  (exists m, t1 = l1 ++ m /\ l2 = m ++ ev :: t2).
Proof.
  revert t1. induction l1 as [|x l1 IH]; intros t1 H; simpl in H.
  - right. by exists t1.
  - destruct t1 as [|y t1]; simpl in H.
    + injection H as -> <-. left. by exists l1.
    + injection H as -> H. destruct (IH t1 H) as [(m & -> & ->)|(m & -> & ->)].
      * left. by exists m.
      * right. by exists m.
Qed.

Lemma quiet_not_accepted (ev : event) (addr : address) (n : Z) :
  quiet ev = true -> ~ accepted addr n ev.
Proof. intros Hq (h & to & g & ->). discriminate Hq. Qed.

Lemma reset_not_accepted (a addr : address) (v n : Z) :
  ~ accepted addr n (Printed (Nonce_reset a v)).
Proof. intros (h & to & g & H). discriminate H. Qed.

Lemma quiet_list_not_accepted (l : list event) (ev : event) (addr : address) (n : Z) :
  forallb quiet l = true -> ev ∈ l -> ~ accepted addr n ev.
Proof.
  intros Hl Hin. apply quiet_not_accepted.
  rewrite forallb_forall in Hl. apply Hl. by apply list_elem_of_In.
Qed.

Lemma quiet_no_reset (l : list event) (addr : address) :
  forallb quiet l = true -> no_reset addr l.
Proof.
  intros Hl current Hin. rewrite forallb_forall in Hl.
  apply list_elem_of_In, Hl in Hin. discriminate Hin.
Qed.

Lemma quiet_not_live (l : list event) (addr : address) (n : Z) :
  forallb quiet l = true -> ~ live addr n l.
Proof.
  intros Hl (t1 & ev & t2 & -> & Hacc & _).
  apply (quiet_list_not_accepted _ ev addr n Hl); [|done].
  apply elem_of_app. right. by left.
Qed.

Lemma no_reset_app (addr : address) (l1 l2 : list event) :
  no_reset addr (l1 ++ l2) <-> no_reset addr l1 /\ no_reset addr l2.
Proof.
  unfold no_reset. split.
  - intros H. split; intros c Hin; apply (H c), elem_of_app; auto.
  - intros [H1 H2] c Hin. apply elem_of_app in Hin as [Hin|Hin]; [by apply (H1 c)|by apply (H2 c)].
Qed.

Lemma live_app_inv (addr : address) (n : Z) (l1 l2 : list event) :
  live addr n (l1 ++ l2) ->
  (live addr n l1 /\ no_reset addr l2) \/ live addr n l2.
Proof.
  intros (t1 & ev & t2 & H & Hacc & Hnr).
  apply app_eq_split in H as [(m & -> & ->)|(m & -> & ->)].
  - apply no_reset_app in Hnr as [Hm Hl2]. left. split; [|done]. by exists t1, ev, m.
  - right. by exists m, ev, t2.
Qed.

(** The only accepted broadcast of [pre ++ ev :: post] is [ev] when both
    sides hold none. *)
Lemma accepted_split (pre post t1 t2 : list event) (ev ev' : event)
    (addr : address) (n : Z) :
  pre ++ ev :: post = t1 ++ ev' :: t2 ->
  accepted addr n ev' ->
  (forall x, x ∈ pre -> ~ accepted addr n x) ->
  (forall x, x ∈ post -> ~ accepted addr n x) ->
  t1 = pre /\ ev' = ev /\ t2 = post.
Proof.
  intros H Hacc Hpre Hpost.
  apply app_eq_split in H as [(m & -> & H)|(m & -> & H)].
  - exfalso. apply (Hpre ev'); [|done]. apply elem_of_app. right. by left.
  - destruct m as [|x m]; simpl in H.
    + injection H as -> ->. by rewrite app_nil_r.
    + injection H as -> ->. exfalso. apply (Hpost ev'); [|done].
      apply elem_of_app. right. by left.
Qed.
(** ** The invariant of the loop *)

Lemma accepted_inj (ev : event) (a a' : address) (n n' : Z) :
  accepted a n ev -> accepted a' n' ev -> a = a' /\ n = n'.
Proof.
  intros (h & to & g & ->) (h' & to' & g' & H). injection H as _ -> _ -> _. done.
Qed.

(** What the step lemmas below need from [cycle_effect]. *)
Lemma cycle_effect_accepted (addr : address) (k : string) (s s' : state) :
  cycle_effect addr k s s' ->
  exists new,
    events_since s s' new /\
    (forall t1 ev t2 addr' n,
        new = t1 ++ ev :: t2 -> accepted addr' n ev ->
        addr' = addr /\ nonces s !! k = Some n /\ forallb quiet t1 = true /\
        (no_reset addr t2 -> nonces s' !! k = Some (n + 1))) /\
    (forall k',
        nonces s' !! k' = nonces s !! k' \/
        (k' = k /\
         ((exists n0, nonces s !! k = Some n0 /\ nonces s' !! k = Some (n0 + 1)) \/
          ~ no_reset addr new))).
Proof.
  intros [new E Hq Hn|pre current post E Hpre Hpost Hn
         |pre ev n post E Hacc Hpre Hpost Hk Hn
         |pre ev n mid current post E Hacc Hpre Hmid Hpost Hk Hn];
    eexists; (split; [exact E|]); split.
  - intros t1 ev t2 addr' n -> Hacc. exfalso.
    apply (quiet_list_not_accepted _ ev addr' n Hq); [|done].
    apply elem_of_app. right. by left.
  - intros k'. left. by rewrite Hn.
  - intros t1 ev t2 addr' n H Hacc. exfalso.
    assert (Hin : ev ∈ pre ++ Printed (Nonce_reset addr current) :: post).
    { rewrite H. apply elem_of_app. right. by left. }
    apply elem_of_app in Hin as [Hin|Hin].
    + by apply (quiet_list_not_accepted _ ev addr' n Hpre).
    + apply elem_of_cons in Hin as [->|Hin].
      * by apply (reset_not_accepted addr addr' current n).
      * by apply (quiet_list_not_accepted _ ev addr' n Hpost).
  - intros k'. destruct (decide (k' = k)) as [->|Hne].
    + right. split; [done|]. right. intros Hnr. apply (Hnr current).
      apply elem_of_app. right. by left.
    + left. rewrite Hn. by apply lookup_insert_ne.
  - intros t1 ev' t2 addr' n' H Hacc'.
    destruct (accepted_split _ _ _ _ _ _ _ _ H Hacc') as (-> & -> & ->).
    + intros x Hx. by apply (quiet_list_not_accepted pre).
    + intros x Hx. by apply (quiet_list_not_accepted post).
    + destruct (accepted_inj _ _ _ _ _ Hacc Hacc') as [-> ->].
      repeat split; try done. intros _. rewrite Hn. by apply lookup_insert_eq.
  - intros k'. destruct (decide (k' = k)) as [->|Hne].
    + right. split; [done|]. left. exists n. split; [done|].
      rewrite Hn. by apply lookup_insert_eq.
    + left. rewrite Hn. by apply lookup_insert_ne.
  - intros t1 ev' t2 addr' n' H Hacc'.
    destruct (accepted_split _ _ _ _ _ _ _ _ H Hacc') as (-> & -> & ->).
    + intros x Hx. by apply (quiet_list_not_accepted pre).
    + intros x Hx. apply elem_of_app in Hx as [Hx|Hx].
      * by apply (quiet_list_not_accepted mid).
      * apply elem_of_cons in Hx as [->|Hx].
        -- by apply (reset_not_accepted addr addr' current n').
        -- by apply (quiet_list_not_accepted post).
    + destruct (accepted_inj _ _ _ _ _ Hacc Hacc') as [-> ->].
      repeat split; try done. intros Hnr. exfalso. apply (Hnr current).
      apply elem_of_app. right. by left.
  - intros k'. destruct (decide (k' = k)) as [->|Hne].
    + right. split; [done|]. right. intros Hnr. apply (Hnr current).
      apply elem_of_app. right. right. apply elem_of_app. right. by left.
    + left. rewrite Hn. by apply lookup_insert_ne.
Qed.

Section Invariant.

Variable cfg : Config.
Hypothesis distinct : acct_address (acct_a cfg) <> acct_address (acct_b cfg).

Lemma paired_key (addr : address) (k k' : string) :
  paired cfg addr k -> paired cfg addr k' -> k = k'.
Proof. intros [[-> ->]|[-> ->]] [[E ->]|[E ->]]; congruence. Qed.

Lemma paired_addr (addr addr' : address) (k : string) :
  paired cfg addr k -> paired cfg addr' k -> addr = addr'.
Proof. intros [[-> ->]|[-> ->]] [[-> E]|[-> E]]; congruence. Qed.

Lemma direction_paired (turn : Z) :
  let '(send_from, _, nkey) := direction cfg turn in
  paired cfg (acct_address send_from) nkey.
Proof. unfold direction. destruct (turn mod 2 =? 0); [by left|by right]. Qed.

(** A cycle for a paired account keeps the invariant. *)
Lemma cycle_keeps_invariant (addr : address) (k : string) (s s' : state) :
  paired cfg addr k ->
  cycle_effect addr k s s' ->
  increasing (out s) /\ counters_above cfg s ->
  increasing (out s') /\ counters_above cfg s'.
Proof.
  intros Hp Heff [Hinc Habove].
  destruct (cycle_effect_accepted _ _ _ _ Heff) as (new & E & Hacc & Hcnt).
  unfold events_since in E. split.
  - intros t1 ev t2 addr' n H Ha n1 Hlive. rewrite E in H.
    apply app_eq_split in H as [(m & H & ->)|(m & -> & H)].
    + by apply (Hinc t1 ev m addr' n H Ha).
    + destruct (Hacc m ev t2 addr' n H Ha) as (-> & Hk & Hm & _).
      apply live_app_inv in Hlive as [[Hlive _]|Hlive];
        [|by apply quiet_not_live in Hlive].
      destruct (Habove addr n1 Hlive) as (k' & m' & Hp' & Hk' & Hlt).
      rewrite (paired_key _ _ _ Hp' Hp) in Hk'. congruence.
  - intros addr' n Hlive. rewrite E in Hlive.
    apply live_app_inv in Hlive as [[Hlive Hnr]|Hlive].
    + destruct (Habove addr' n Hlive) as (k' & m' & Hp' & Hk' & Hlt).
      exists k'. destruct (Hcnt k') as [Hsame|[-> [(n0 & Hn0 & Hn1)|Hreset]]].
      * exists m'. by rewrite Hsame.
      * exists (n0 + 1). repeat split; [done|done|]. rewrite Hn0 in Hk'.
        injection Hk' as ->. lia.
      * exfalso. apply Hreset. by rewrite (paired_addr _ _ _ Hp Hp').
    + destruct Hlive as (t1 & ev & t2 & H & Ha & Hnr).
      destruct (Hacc t1 ev t2 addr' n H Ha) as (-> & Hk & _ & Hnext).
      exists k, (n + 1). repeat split; [done|by apply Hnext|lia].
Qed.

Lemma main_loop_from_keeps_invariant (w3s : list Node) (turn : Z) (s : state) :
  increasing (out s) /\ counters_above cfg s ->
  let s' := snd (main_loop_from cfg w3s turn s) in
  increasing (out s') /\ counters_above cfg s'.
Proof.
  revert turn s. induction w3s as [|w3 rest IH]; intros turn s Hinv; [done|].
  simpl. pose proof (main_loop_body_effect cfg w3 turn s) as Heff.
  pose proof (direction_paired turn) as Hp.
  destruct (direction cfg turn) as [[send_from to] nkey].
  pose proof (cycle_keeps_invariant _ _ _ _ Hp Heff Hinv) as Hinv'.
  rewrite main_loop_body_eq in *.
  destruct (direction cfg turn) as [[send_from' to'] nkey']. simpl in *.
  by apply IH.
Qed.

End Invariant.
(** ** The phrases of the classification *)






(** ** From the signed transaction to the submission *)

Lemma build_and_send_signed (cfg : Config) (w3 : Node) (from_acct : account)
    (to_addr : address) (k : string) (s s1 : state) (tx : transaction) (raw : string) :
  build_and_sign cfg w3 from_acct to_addr k s = (Ok (tx, raw), s1) ->
  build_and_send cfg w3 from_acct to_addr k s =
    send cfg w3 from_acct to_addr k (tx_gas tx) raw s1 /\
  nonces s1 = nonces s /\
  nonces s1 !! k = Some (tx_nonce tx).
Proof.
  intros H. rewrite build_and_send_eq, H. split; [reflexivity|].
  pose proof (build_and_sign_frame cfg w3 from_acct to_addr k s) as Hf.
  pose proof (build_and_sign_ok cfg w3 from_acct to_addr k s tx raw) as Hok.
  rewrite H in Hf, Hok. simpl in Hf, Hok.
  destruct (Hok eq_refl) as (_ & Hn & _). by rewrite Hf.
Qed.
(** * The claims *)

Import Scenario.

(** ** Fee estimator *)

(** C3, as amended.  When the latest block carries a base fee [b] with
    [0 <= b] and [5 * b < 2^53], the result is the dynamic-fee pair whose
    priority fee is the recommended one, or 2 gwei when that query raises,
    and whose max fee is [floor (5 * b / 2)] plus the priority fee; when the
    block carries no base fee the result is the legacy gas price, or the
    exception of that query. *)
Theorem compute_fee_values_correct (w3 : Node) (latest : block) (s : state) :
  get_block w3 "latest" = Ok latest ->
  match baseFeePerGas latest with
  | Some base_fee =>
      0 <= base_fee -> 5 * base_fee < 2 ^ 53 ->
      let priority :=
        match max_priority_fee w3 with Ok p => p | Raise _ => 2000000000 end in
      fst (compute_fee_values w3 s) =
        Ok (Eip1559 priority (5 * base_fee / 2 + priority))
  | None =>
      fst (compute_fee_values w3 s) =
        match gas_price w3 with Ok gp => Ok (Legacy gp) | Raise e => Raise e end
  end.
Proof.
  intros Hb. rewrite compute_fee_values_eq, Hb.
  destruct (baseFeePerGas latest) as [base_fee|].
  - intros H0 H53. cbv zeta. by rewrite (int_times_2_5_exact base_fee H0 H53).
  - by destruct (gas_price w3).
Qed.

(** Base fee 100 and priority fee 10 give a max fee of 260. *)
Lemma compute_fee_values_correct_witness :
  get_block healthy "latest" = Ok {| baseFeePerGas := Some 100 |} /\
  fst (compute_fee_values healthy started) = Ok (Eip1559 10 260).
Proof.
  split; [reflexivity|].
  apply (compute_fee_values_correct healthy {| baseFeePerGas := Some 100 |} started eq_refl);
    [lia|reflexivity].
Defined.

(** C3 as stated fails for a base fee of 1801439850948199 wei: the float
    product [base_fee * 2.5] is rounded to an even significand, so the max
    fee is one more than [floor (base_fee * 2.5) + priority].  For a base
    fee of [2^1024] the conversion to a float raises and there is no result. *)
Lemma compute_fee_values_rounds_large_base_fee :
  get_block huge_base_fee "latest" = Ok {| baseFeePerGas := Some 1801439850948199 |} /\
  max_priority_fee huge_base_fee = Ok 10 /\
  5 * 1801439850948199 / 2 + 10 = 4503599627370507 /\
  fst (compute_fee_values huge_base_fee started) = Ok (Eip1559 10 4503599627370508) /\
  fst (compute_fee_values huge_base_fee started) <>
    Ok (Eip1559 10 (5 * 1801439850948199 / 2 + 10)) /\
  fst (compute_fee_values absurd_base_fee started) =
    Raise {| exn_cls := OverflowError; exn_str := "int too large to convert to float" |}.
Proof. repeat split; try reflexivity. vm_compute. discriminate. Qed.

(** ** Resource limit estimator *)

(** C4, as amended.  The gas limit of the signed transaction is
    [floor (11 * e / 10)] when the simulation returns an estimate
    [0 <= e < 2^47], and 21000 when the simulation raises. *)
Theorem gas_limit_correct (cfg : Config) (w3 : Node) (from_acct : account)
    (to_addr : address) (k : string) (s : state) (tx : transaction) (raw : string) :
  fst (build_and_sign cfg w3 from_acct to_addr k s) = Ok (tx, raw) ->
  match estimate_gas w3 {| call_to := to_addr; call_value := tx_value tx;
                           call_nonce := tx_nonce tx; call_chainId := tx_chainId tx;
                           call_from := acct_address from_acct |} with
  | Ok estimated => 0 <= estimated < 2 ^ 47 -> tx_gas tx = 11 * estimated / 10
  | Raise _ => tx_gas tx = 21000
  end.
Proof.
  intros H.
  destruct (build_and_sign_ok cfg w3 from_acct to_addr k s tx raw H)
    as (_ & _ & _ & _ & Hg & _).
  specialize (Hg s). rewrite gas_limit_for_eq in Hg.
  destruct (estimate_gas w3 _) as [estimated|e].
  - intros He. rewrite (floor_times_1_1_exact estimated He) in Hg. by injection Hg.
  - by injection Hg.
Qed.

(** An estimate of 100000 gives a limit of 110000. *)
Lemma gas_limit_correct_witness :
  estimate_gas healthy request = Ok 100000 /\
  exists tx raw,
    fst (build_and_sign (config 1) healthy alice (acct_address bob) "A" started) =
      Ok (tx, raw) /\
    tx_gas tx = 110000.
Proof.
  split; [reflexivity|].
  exists {| tx_to := acct_address bob; tx_value := 10000000000000000; tx_nonce := 7;
            tx_chainId := 1; tx_gas := 110000; tx_fee := Eip1559 10 260 |}, "0xf86b".
  split; [reflexivity|].
  refine (gas_limit_correct (config 1) healthy alice (acct_address bob) "A" started
            _ "0xf86b" eq_refl _).
  lia.
Defined.

(** C4 as stated fails for an estimate of [2^1024]: the conversion of the
    estimate to a float raises OverflowError inside the [try], and the limit
    is the fallback although the simulation succeeded.  Below the overflow
    the product is rounded to 53 bits: an estimate of [10^17] gives a limit
    16 above [floor (11 * 10^17 / 10)]. *)
Lemma gas_limit_falls_back_on_overflow :
  estimate_gas huge_estimate request = Ok (2 ^ 1024) /\
  fst (gas_limit_for huge_estimate request started) = Ok 21000 /\
  fst (gas_limit_for huge_estimate request started) <> Ok (11 * 2 ^ 1024 / 10) /\
  floor_times_1_1 (10 ^ 17) = Ok (11 * 10 ^ 17 / 10 + 16).
Proof. repeat split; try reflexivity. vm_compute. discriminate. Qed.
(** ** Submission and reconciliation *)







(** C7, as amended.  After an accepted broadcast the receipt is awaited
    exactly when the configured count is positive, once, with a timeout of
    120 and a poll latency of 2; when the wait raises TimeExhausted the call
    still returns the transaction id and the counter stays advanced. *)
Theorem receipt_wait_when_positive (cfg : Config) (w3 : Node) (from_acct : account)
    (to_addr : address) (k : string) (s s1 : state) (tx : transaction)
    (raw tx_hash : string) :
  build_and_sign cfg w3 from_acct to_addr k s = (Ok (tx, raw), s1) ->
  send_raw_transaction w3 raw = Ok tx_hash ->
  let r := build_and_send cfg w3 from_acct to_addr k s in
  (exists new,
      events_since s1 (snd r) new /\
      List.filter is_wait new =
        if 0 <? WAIT_FOR_CONFIRMATIONS cfg
        then [Wait_for_transaction_receipt tx_hash 120 2] else []) /\
  (forall e,
      0 < WAIT_FOR_CONFIRMATIONS cfg ->
      wait_for_transaction_receipt w3 tx_hash 120 2 = Raise e ->
      exn_cls e = TimeExhausted ->
      r = (Ok (Some tx_hash),
           stored (logged s1 [Send_raw_transaction raw;
                              Printed (Tx_submitted tx_hash (acct_address from_acct) to_addr
                                                  (tx_nonce tx) (tx_gas tx));
                              Wait_for_transaction_receipt tx_hash 120 2;
                              Printed Receipt_timeout])
                  k (tx_nonce tx + 1))).
Proof.
  intros Hsign Hsend r. subst r.
  destruct (build_and_send_signed _ _ _ _ _ _ _ _ _ Hsign) as (-> & Hn & Hk).
  rewrite (send_accepted_eq cfg w3 _ _ _ _ _ _ _ _ Hsend Hk). cbv zeta.
  split.
  - unfold events_since.
    destruct (0 <? WAIT_FOR_CONFIRMATIONS cfg).
    + destruct (wait_for_transaction_receipt w3 tx_hash 120 2) as [rc|e].
      * eexists. simpl. rewrite <- app_assoc. split; reflexivity.
      * assert (Herr : exists l,
                   out (snd (on_send_error w3 from_acct k e
                     (logged (stored (logged s1 [Send_raw_transaction raw;
                        Printed (Tx_submitted tx_hash (acct_address from_acct) to_addr
                                 (tx_nonce tx) (tx_gas tx))]) k (tx_nonce tx + 1))
                        [Wait_for_transaction_receipt tx_hash 120 2]))) =
                   out s1 ++ [Send_raw_transaction raw;
                     Printed (Tx_submitted tx_hash (acct_address from_acct) to_addr
                              (tx_nonce tx) (tx_gas tx));
                     Wait_for_transaction_receipt tx_hash 120 2] ++ l /\
                   List.filter is_wait l = []).
        { rewrite on_send_error_eq. simpl.
          destruct (is_nonce_conflict (exn_str e)).
          - destruct (get_transaction_count w3 (acct_address from_acct) "pending");
              simpl; rewrite <- !app_assoc; simpl; eexists; split; reflexivity.
          - simpl. rewrite <- !app_assoc. simpl. eexists; split; reflexivity. }
        destruct Herr as (l & Hl & Hf).
        destruct (exn_cls e).
        -- eexists. simpl. rewrite <- app_assoc. split; reflexivity.
        -- eexists. split; [exact Hl|]. simpl. by rewrite Hf.
        -- eexists. split; [exact Hl|]. simpl. by rewrite Hf.
        -- eexists. split; [exact Hl|]. simpl. by rewrite Hf.
    + eexists. split; reflexivity.
  - intros e Hwait Hraise Hcls. apply Z.ltb_lt in Hwait.
    rewrite Hwait, Hraise, Hcls. f_equal. unfold stored, logged. simpl.
    by rewrite <- !app_assoc.
Qed.

(** With a count of 1 and a wait that times out, the id is returned and
    the counter of A is 8. *)
Lemma receipt_wait_when_positive_witness :
  let w3 := wait_raising time_exhausted (Ok 7) in
  let r := build_and_send (config 1) w3 alice (acct_address bob) "A" started in
  0 < WAIT_FOR_CONFIRMATIONS (config 1) /\
  exn_cls time_exhausted = TimeExhausted /\
  fst r = Ok (Some "0xabc") /\
  nonces (snd r) !! "A" = Some 8 /\
  List.filter is_wait (out (snd r)) = [Wait_for_transaction_receipt "0xabc" 120 2].
Proof.
  cbv zeta.
  pose proof (receipt_wait_when_positive (config 1) (wait_raising time_exhausted (Ok 7))
                alice (acct_address bob) "A" started _ _ _ _ eq_refl eq_refl) as [_ H].
  rewrite (H time_exhausted eq_refl eq_refl eq_refl).
  repeat split; reflexivity.
Defined.

(** C7 as stated fails for a negative count: with
    WAIT_FOR_CONFIRMATIONS = -1 the count is not zero, the broadcast is
    accepted, and no receipt is awaited. *)
Lemma no_receipt_wait_for_negative_count :
  let r := build_and_send (config (-1)) healthy alice (acct_address bob) "A" started in
  WAIT_FOR_CONFIRMATIONS (config (-1)) <> 0 /\
  fst r = Ok (Some "0xabc") /\
  List.filter is_wait (out (snd r)) = [].
Proof. cbv zeta. repeat split; try reflexivity. discriminate. Qed.
(** ** Sequence tracker *)



(** C9.  A call of [build_and_send] with nonce key [k] either leaves the
    dict of counters as it was or overwrites the entry of [k]; the entry of
    any other key is unchanged, whether the call returns an id, returns
    nothing or raises. *)
Theorem build_and_send_frame (cfg : Config) (w3 : Node) (from_acct : account)
    (to_addr : address) (k k' : string) (s : state) :
  k' <> k ->
  let s' := snd (build_and_send cfg w3 from_acct to_addr k s) in
  nonces s' !! k' = nonces s !! k' /\
  (nonces s' = nonces s \/ exists v, nonces s' = <[k := v]> (nonces s)).
Proof.
  intros Hne s'. subst s'.
  destruct (build_and_send_effect cfg w3 from_acct to_addr k s)
    as [new E Hq Hn|pre current post E Hpre Hpost Hn
       |pre ev n post E Hacc Hpre Hpost Hk Hn
       |pre ev n mid current post E Hacc Hpre Hmid Hpost Hk Hn];
    rewrite Hn; (split; [by rewrite ?lookup_insert_ne|]); eauto.
Qed.

(** A cycle of A that advances its counter leaves the counter of B at 7. *)
Lemma build_and_send_frame_witness :
  "B" <> "A" /\
  nonces (snd (build_and_send (config 1) healthy alice (acct_address bob) "A"
                 started)) !! "B" = Some 7.
Proof.
  assert (Hne : "B" <> "A") by discriminate.
  split; [exact Hne|].
  destruct (build_and_send_frame (config 1) healthy alice (acct_address bob) "A" "B"
              started Hne) as [H _].
  rewrite H. reflexivity.
Defined.
(** ** Alternation controller *)

Lemma main_loop_from_turn (cfg : Config) (w3s : list Node) (turn : Z) (s : state) :
  fst (main_loop_from cfg w3s turn s) = turn + Z.of_nat (List.length w3s).
Proof.
  revert turn s. induction w3s as [|w3 rest IH]; intros turn s.
  - simpl. lia.
  - cbn [main_loop_from]. rewrite main_loop_body_eq.
    destruct (direction cfg turn) as [[send_from to] nkey]. cbv beta iota zeta.
    rewrite IH. cbn [List.length]. lia.
Qed.



(** ** Fee failures *)




(** ** Sequence numbers over the life of the process *)

Lemma quiet_invariant (cfg : Config) (s : state) :
  forallb quiet (out s) = true -> increasing (out s) /\ counters_above cfg s.
Proof.
  intros Hq. split.
  - intros t1 ev t2 addr n H Hacc. exfalso.
    apply (quiet_list_not_accepted _ ev addr n Hq); [|done].
    rewrite H. apply elem_of_app. right. by left.
  - intros addr n Hlive. by apply quiet_not_live in Hlive.
Qed.

Lemma startup_quiet (cfg : Config) (w3 : Node) :
  forallb quiet (out (snd (startup cfg w3 {| nonces := ∅; out := [] |}))) = true.
Proof.
  unfold startup, get_initial_nonces. unfold_m. simpl.
  repeat destruct_inner; reflexivity.
Qed.

Lemma no_reset_filter (addr : address) (l : list event) :
  List.filter is_reset l = [] -> no_reset addr l.
Proof.
  intros H current Hin. apply list_elem_of_In in Hin.
  assert (Hf : In (Printed (Nonce_reset addr current)) (List.filter is_reset l))
    by (by apply List.filter_In).
  by rewrite H in Hf.
Qed.

(** C1, as amended.  With two accounts at different addresses, any two
    accepted broadcasts of the same account carry strictly increasing
    sequence numbers unless the counter of that account was reset from the
    network between them. *)
Theorem accepted_nonces_increase (cfg : Config) (w3_0 : Node) (w3s : list Node)
    (t1 t2 t3 : list event) (h1 h2 : string) (addr to1 to2 : address)
    (n1 n2 g1 g2 : Z) :
  acct_address (acct_a cfg) <> acct_address (acct_b cfg) ->
  out (snd (run cfg w3_0 w3s)) =
    t1 ++ Printed (Tx_submitted h1 addr to1 n1 g1) ::
    t2 ++ Printed (Tx_submitted h2 addr to2 n2 g2) :: t3 ->
  no_reset addr t2 ->
  n1 < n2.
Proof.
  intros Hdist Hout Hnr. unfold run in Hout.
  pose proof (startup_quiet cfg w3_0) as Hq.
  destruct (startup cfg w3_0 {| nonces := ∅; out := [] |}) as [[u|e] s1].
  - simpl in Hq.
    pose proof (main_loop_from_keeps_invariant cfg Hdist w3s 0 s1
                  (quiet_invariant cfg s1 Hq)) as [Hinc _].
    unfold main_loop in Hout.
    destruct (main_loop_from cfg w3s 0 s1) as [turn s']. simpl in Hout, Hinc.
    apply (Hinc (t1 ++ Printed (Tx_submitted h1 addr to1 n1 g1) :: t2)
                (Printed (Tx_submitted h2 addr to2 n2 g2)) t3 addr n2).
    + rewrite Hout. rewrite <- app_assoc. reflexivity.
    + by do 3 eexists.
    + exists t1, (Printed (Tx_submitted h1 addr to1 n1 g1)), t2.
      split; [reflexivity|]. split; [by do 3 eexists|done].
  - simpl in Hq, Hout. exfalso.
    apply (quiet_list_not_accepted _ (Printed (Tx_submitted h1 addr to1 n1 g1)) addr n1 Hq).
    + rewrite Hout. apply elem_of_app. right. by left.
    + by do 3 eexists.
Qed.

(** Three cycles against [healthy]: A broadcasts with 7 in cycle 0 and
    with 8 in cycle 2. *)
Lemma accepted_nonces_increase_witness :
  let tr := out (snd (run (config 1) healthy [healthy; healthy; healthy])) in
  acct_address alice <> acct_address bob /\
  tr = take 8 tr ++ Printed (Tx_submitted "0xabc" "0xA11CE" "0xB0B" 7 110000) ::
       take 21 (drop 9 tr) ++
       Printed (Tx_submitted "0xabc" "0xA11CE" "0xB0B" 8 110000) :: drop 31 tr /\
  7 < 8.
Proof.
  cbv zeta.
  assert (Hdist : acct_address alice <> acct_address bob) by discriminate.
  assert (Hout : out (snd (run (config 1) healthy [healthy; healthy; healthy])) =
                 take 8 (out (snd (run (config 1) healthy [healthy; healthy; healthy]))) ++
                 Printed (Tx_submitted "0xabc" "0xA11CE" "0xB0B" 7 110000) ::
                 take 21 (drop 9 (out (snd (run (config 1) healthy
                                              [healthy; healthy; healthy])))) ++
                 Printed (Tx_submitted "0xabc" "0xA11CE" "0xB0B" 8 110000) ::
                 drop 31 (out (snd (run (config 1) healthy [healthy; healthy; healthy]))))
    by reflexivity.
  split; [exact Hdist|]. split; [exact Hout|].
  apply (accepted_nonces_increase (config 1) healthy [healthy; healthy; healthy]
           _ _ _ _ _ _ _ _ _ _ _ _ Hdist Hout).
  apply no_reset_filter. reflexivity.
Defined.

(** C1 as stated fails after a refusal that is not a sequence conflict:
    the counter is left alone, so the next transaction built for A is
    signed and broadcast with the same number 7, and no counter was reset
    in between. *)
Lemma same_nonce_signed_twice_after_refusal :
  let msg := "insufficient funds for gas * price + value" in
  let tr := out (snd (run (config 0) healthy
                        [refusing msg (Ok 7); fee_down; refusing msg (Ok 7)])) in
  exists t1 t2 t3 tx1 tx2,
    tr = t1 ++ Sign_transaction tx1 "key-a" :: t2 ++
         Sign_transaction tx2 "key-a" :: t3 /\
    tx_nonce tx1 = 7 /\ tx_nonce tx2 = 7 /\
    List.filter is_send_raw t2 = [Send_raw_transaction "0xf86b"] /\
    List.filter is_send_raw t3 = [Send_raw_transaction "0xf86b"] /\
    List.filter is_reset tr = [].
Proof.
  cbv zeta.
  set (tr := out (snd (run (config 0) healthy _))).
  set (tx := {| tx_to := acct_address bob; tx_value := 10000000000000000; tx_nonce := 7;
                tx_chainId := 1; tx_gas := 110000; tx_fee := Eip1559 10 260 |}).
  exists (take 6 tr), (take 14 (drop 7 tr)), (drop 22 tr), tx, tx.
  repeat split; reflexivity.
Qed.
(** * Further properties *)

(** ** The two safety margins, for every input a float can hold *)

Module PyFloatBounds.
Import PyFloat.

(** Rounding to 53 bits moves a non-negative value by at most one part
    in [2^52]; the exponent only grows, and it grows by [s > 0] only for
    mantissas of at least [52 + s + 1] bits. *)
Lemma round53_bounds (m e : Z) :
  0 <= m ->
  exists s m',
    round53 m e = (m', e + s) /\
    0 <= s /\ 0 <= m' <= 2 ^ 53 /\
    (2 ^ 52 - 1) * m <= 2 ^ 52 * (m' * 2 ^ s) <= (2 ^ 52 + 1) * m /\
    (s = 0 \/ 2 ^ (52 + s) <= m).
Proof.
  intros Hm. unfold round53. rewrite Z.abs_eq by lia.
  set (s := Z.log2 m + 1 - 53).
  destruct (Z.leb_spec s 0) as [Hs|Hs].
  - exists 0, m. rewrite Z.add_0_r.
    assert (m < 2 ^ 53).
    { destruct (Z.eq_dec m 0) as [->|]; [reflexivity|].
      apply Z.log2_lt_pow2; lia. }
    repeat split; lia.
  - assert (Hpos : 0 < m).
    { destruct (Z.eq_dec m 0) as [E|]; [|lia]. subst s. rewrite E in Hs.
      simpl in Hs. lia. }
    rewrite (Z.sgn_pos m) by lia. rewrite Z.mul_1_l.
    exists s, (round_nearest_even m s).
    pose proof (PyFloatFacts.round_nearest_even_bounds m s) as Hq.
    set (m' := round_nearest_even m s) in *.
    destruct (Z.log2_spec m Hpos) as [Hlo Hhi].
    assert (Hlog : Z.log2 m = 52 + s) by (subst s; lia).
    rewrite Hlog in Hlo.
    replace (Z.succ (Z.log2 m)) with (53 + s) in Hhi by lia.
    rewrite Z.pow_add_r in Hlo, Hhi by lia.
    set (P := 2 ^ s) in *.
    assert (HP : 0 < P) by (subst P; apply Z.pow_pos_nonneg; lia).
    pose proof (Z.div_mod m P ltac:(lia)) as Hdm.
    pose proof (Z.mod_pos_bound m P HP) as Hr.
    set (q := m / P) in *. set (r := m mod P) in *.
    assert (H52 : 2 ^ 52 = 4503599627370496) by reflexivity.
    assert (H53 : 2 ^ 53 = 9007199254740992) by reflexivity.
    rewrite H52, H53 in *.
    assert (Hq53 : q < 9007199254740992) by nia.
    assert (Hq0 : 0 <= q) by nia.
    assert (HqP : q * P <= m' * P <= q * P + P) by nia.
    repeat split; try lia.
    right. rewrite Z.pow_add_r by lia. rewrite H52. fold P. lia.
Qed.

Lemma log2_le_53 (m : Z) : 0 <= m <= 2 ^ 53 -> Z.log2 m <= 53.
Proof.
  intros [H0 H1]. rewrite <- (Z.log2_pow2 53) by lia. by apply Z.log2_le_mono.
Qed.

(** [n * c] for an [int] [0 <= n < 2^1000] and a constant [c * 2^ec]
    between 0 and 4 is a finite float; its value [m * 2^e] is the exact
    product up to two roundings. *)
Lemma int_mul_bounds (n c ec : Z) :
  0 <= n < 2 ^ 1000 -> 0 < c < 2 ^ (2 - ec) -> ec <= 0 ->
  exists m t,
    int_mul n (Finite c ec) = Ok (Finite m (ec + t)) /\
    0 <= t /\ 0 <= m /\
    (2 ^ 52 - 1) * (2 ^ 52 - 1) * (c * n) <= 2 ^ 52 * 2 ^ 52 * (m * 2 ^ t) /\
    2 ^ 52 * 2 ^ 52 * (m * 2 ^ t) <= (2 ^ 52 + 1) * (2 ^ 52 + 1) * (c * n).
Proof.
  intros Hn Hc Hec.
  destruct (round53_bounds n 0 ltac:(lia)) as (s1 & m1 & E1 & Hs1 & Hm1 & Hv1 & Hb1).
  destruct (round53_bounds (m1 * c) (0 + s1 + ec) ltac:(nia))
    as (s2 & m2 & E2 & Hs2 & Hm2 & Hv2 & Hb2).
  assert (Hs1' : s1 < 948).
  { destruct Hb1 as [->|Hb1]; [lia|].
    assert (52 + s1 < 1000); [|lia].
    apply (Z.pow_lt_mono_r_iff 2); [lia|lia|].
    apply Z.le_lt_trans with (m := n); [exact Hb1|apply Hn]. }
  assert (Hs2' : s2 + ec < 3).
  { destruct Hb2 as [->|Hb2]; [lia|].
    assert (52 + s2 < 53 + (2 - ec)); [|lia].
    apply (Z.pow_lt_mono_r_iff 2); [lia|lia|].
    apply Z.le_lt_trans with (m := m1 * c); [exact Hb2|].
    rewrite Z.pow_add_r by lia.
    assert (0 < 2 ^ (2 - ec)) by (apply Z.pow_pos_nonneg; lia).
    nia. }
  exists m2, (s1 + s2).
  unfold int_mul, of_int. rewrite E1.
  assert (O1 : overflows m1 (0 + s1) = false).
  { unfold overflows. destruct (m1 =? 0); [reflexivity|].
    rewrite Z.abs_eq by lia. pose proof (log2_le_53 m1 Hm1) as Hl1.
    apply Z.leb_gt.
    lia. }
  rewrite O1. unfold mul. rewrite E2.
  assert (O2 : overflows m2 (0 + s1 + ec + s2) = false).
  { unfold overflows. destruct (m2 =? 0); [reflexivity|].
    rewrite Z.abs_eq by lia. pose proof (log2_le_53 m2 Hm2) as Hl2.
    apply Z.leb_gt. lia. }
  rewrite O2. split; [do 2 f_equal; lia|].
  split; [lia|]. split; [lia|].
  rewrite Z.pow_add_r by lia.
  set (P1 := 2 ^ s1) in *. set (P2 := 2 ^ s2) in *.
  assert (HP1 : 0 < P1) by (subst P1; apply Z.pow_pos_nonneg; lia).
  set (X := m1 * P1) in *. set (Y := m2 * P2) in *.
  assert (HX : 0 <= X) by (subst X; nia).
  replace (m2 * (P1 * P2)) with (Y * P1) by (subst Y; ring).
  assert (H52 : 2 ^ 52 = 4503599627370496) by reflexivity.
  rewrite H52 in *.
  assert (Hlo : 4503599627370495 * (c * X) <= 4503599627370496 * (Y * P1)).
  { replace (c * X) with (m1 * c * P1) by (subst X; ring).
    replace (4503599627370495 * (m1 * c * P1))
      with (4503599627370495 * (m1 * c) * P1) by ring.
    replace (4503599627370496 * (Y * P1)) with (4503599627370496 * Y * P1) by ring.
    apply Z.mul_le_mono_nonneg_r; lia. }
  assert (Hhi : 4503599627370496 * (Y * P1) <= 4503599627370497 * (c * X)).
  { replace (c * X) with (m1 * c * P1) by (subst X; ring).
    replace (4503599627370497 * (m1 * c * P1))
      with (4503599627370497 * (m1 * c) * P1) by ring.
    replace (4503599627370496 * (Y * P1)) with (4503599627370496 * Y * P1) by ring.
    apply Z.mul_le_mono_nonneg_r; lia. }
  set (W := Y * P1) in *.
  assert (Hcx_lo : 4503599627370495 * (c * n) <= 4503599627370496 * (c * X)) by nia.
  assert (Hcx_hi : 4503599627370496 * (c * X) <= 4503599627370497 * (c * n)) by nia.
  set (CX := c * X) in *. set (CN := c * n) in *.
  lia.
Qed.

(** The value [m * 2^(t - k)] rounded down is [m * 2^t / 2^k]. *)
Lemma shiftl_scaled (m t k : Z) :
  0 <= t -> 0 <= k -> Z.shiftl m (t - k) = m * 2 ^ t / 2 ^ k.
Proof.
  intros Ht Hk. destruct (Z.le_gt_cases k t) as [H|H].
  - rewrite Z.shiftl_mul_pow2 by lia.
    replace (m * 2 ^ t) with (m * 2 ^ (t - k) * 2 ^ k).
    + rewrite Z.div_mul; [reflexivity|]. apply Z.pow_nonzero; lia.
    + rewrite <- Z.mul_assoc, <- Z.pow_add_r by lia. do 2 f_equal. lia.
  - rewrite Z.shiftl_div_pow2 by lia.
    replace (2 ^ k) with (2 ^ (- (t - k)) * 2 ^ t).
    + rewrite Z.div_mul_cancel_r; [reflexivity| |]; apply Z.pow_nonzero; lia.
    + rewrite <- Z.pow_add_r by lia. f_equal. lia.
Qed.

End PyFloatBounds.

(** [math.floor(estimated * 1.1)] never raises below [2^1000], is never
    below the estimate and never more than a fifth above it. *)
Lemma floor_times_1_1_margin (estimated : Z) :
  0 <= estimated < 2 ^ 1000 ->
  exists g,
    floor_times_1_1 estimated = Ok g /\ estimated <= g /\ 10 * g <= 12 * estimated.
Proof.
  intros He.
  destruct (PyFloatBounds.int_mul_bounds estimated 4953959590107546 (-52) He)
    as (m & t & E & Ht & Hm & Hlo & Hhi); [split; [lia|reflexivity]|lia|].
  unfold floor_times_1_1, PyFloat.f1_1. rewrite E. simpl PyFloat.floor.
  replace (-52 + t) with (t - 52) by lia.
  rewrite PyFloatBounds.shiftl_scaled by lia.
  set (W := m * 2 ^ t) in *.
  assert (H52 : 2 ^ 52 = 4503599627370496) by reflexivity.
  rewrite H52 in *.
  eexists. split; [reflexivity|].
  pose proof (Z.mul_div_le W 4503599627370496 ltac:(lia)) as Hle.
  split.
  - apply Z.div_le_lower_bound; lia.
  - set (g := W / 4503599627370496) in *. lia.
Qed.

(** [int(base_fee * 2.5)] never raises below [2^1000] and lies between
    twice and three times the base fee. *)
Lemma int_times_2_5_margin (base_fee : Z) :
  0 <= base_fee < 2 ^ 1000 ->
  exists v,
    int_times_2_5 base_fee = Ok v /\ 2 * base_fee <= v <= 3 * base_fee.
Proof.
  intros Hb.
  destruct (PyFloatBounds.int_mul_bounds base_fee 5 (-1) Hb)
    as (m & t & E & Ht & Hm & Hlo & Hhi); [split; [lia|reflexivity]|lia|].
  unfold int_times_2_5, PyFloat.f2_5. rewrite E. simpl PyFloat.to_int.
  assert (Hv : (if 0 <=? -1 + t then m * 2 ^ (-1 + t) else Z.quot m (2 ^ (- (-1 + t))))
               = m * 2 ^ t / 2 ^ 1).
  { rewrite <- PyFloatBounds.shiftl_scaled by lia.
    destruct (Z.leb_spec 0 (-1 + t)).
    - rewrite Z.shiftl_mul_pow2 by lia. do 2 f_equal. lia.
    - replace t with 0 by lia. rewrite Z.quot_div_nonneg by (simpl; lia).
      by rewrite Z.shiftl_div_pow2. }
  rewrite Hv. set (W := m * 2 ^ t) in *.
  assert (H52 : 2 ^ 52 = 4503599627370496) by reflexivity.
  rewrite H52 in *. change (2 ^ 1) with 2.
  eexists. split; [reflexivity|].
  pose proof (Z.mul_div_le W 2 ltac:(lia)) as Hle.
  split.
  - apply Z.div_le_lower_bound; lia.
  - set (v := W / 2) in *. lia.
Qed.
(** ** What one call observes and changes *)

Lemma estimation_filter (f : event -> bool) (l : list event) :
  (forall ev, is_estimation ev = true -> f ev = false) ->
  forallb is_estimation l = true -> List.filter f l = [].
Proof.
  intros Hf. induction l as [|ev l IH]; [done|]. simpl. rewrite andb_true_iff.
  intros [Hev Hl]. by rewrite (Hf ev Hev), (IH Hl).
Qed.

Lemma estimation_no_sign (ev : event) : is_estimation ev = true -> is_sign ev = false.
Proof. by destruct ev. Qed.

Lemma estimation_no_send_raw (ev : event) :
  is_estimation ev = true -> is_send_raw ev = false.
Proof. by destruct ev. Qed.

Lemma estimation_no_submitted (ev : event) :
  is_estimation ev = true -> is_submitted ev = false.
Proof. destruct ev as [| | | | | | | | |l|]; try done. by destruct l. Qed.

(** The events of lines 75-99: estimations, then at most the signature. *)
Lemma build_and_sign_trace (cfg : Config) (w3 : Node) (from_acct : account)
    (to_addr : address) (k : string) (s : state) :
  exists pre,
    forallb is_estimation pre = true /\
    (build_and_sign cfg w3 from_acct to_addr k s =
       (fst (build_and_sign cfg w3 from_acct to_addr k s), logged s pre) /\
     (forall tx raw, fst (build_and_sign cfg w3 from_acct to_addr k s) <> Ok (tx, raw))
     \/
     exists tx,
       amount_wei cfg = Ok (tx_value tx) /\
       nonces s !! k = Some (tx_nonce tx) /\
       chain_id w3 = Ok (tx_chainId tx) /\
       tx_to tx = to_addr /\
       build_and_sign cfg w3 from_acct to_addr k s =
         (match sign_transaction cfg tx (acct_key from_acct) with
          | Ok raw => Ok (tx, raw)
          | Raise e => Raise e
          end,
          logged s (pre ++ [Sign_transaction tx (acct_key from_acct)]))).
Proof.
  rewrite build_and_sign_eq.
  destruct (amount_wei cfg) as [amount|ea].
  2:{ exists []. split; [done|]. left. rewrite logged_nil. split; [done|]. by intros. }
  destruct (nonces s !! k) as [nonce|].
  2:{ exists []. split; [done|]. left. rewrite logged_nil. split; [done|]. by intros. }
  destruct (chain_id w3) as [cid|ec].
  2:{ exists [Chain_id]. split; [done|]. left. split; [done|]. by intros. }
  match goal with |- context [gas_limit_for w3 ?r ?st] =>
    destruct (gas_limit_for_total w3 r st) as (g & l1 & -> & Hl1) end.
  match goal with |- context [compute_fee_values w3 ?st] =>
    destruct (compute_fee_values_events w3 st) as (l2 & Hs2 & Hl2);
    destruct (compute_fee_values w3 st) as [[fee|ef] s2] end;
    simpl in Hs2; subst s2; rewrite !logged_logged.
  - exists ([Chain_id] ++ l1 ++ l2). split; [by rewrite !forallb_app, Hl1, Hl2|].
    right.
    exists {| tx_to := to_addr; tx_value := amount; tx_nonce := nonce;
              tx_chainId := cid; tx_gas := g; tx_fee := fee |}.
    repeat split. cbv zeta. simpl.
    destruct (sign_transaction cfg _ _); f_equal; unfold logged; f_equal; simpl;
      rewrite <- ?app_assoc; simpl; rewrite <- ?app_assoc; reflexivity.
  - exists ([Chain_id] ++ l1 ++ l2). split; [by rewrite !forallb_app, Hl1, Hl2|].
    left. split; [|by intros].
    simpl; unfold logged; simpl; rewrite <- ?app_assoc; simpl; rewrite <- ?app_assoc;
      reflexivity.
Qed.

(** The events of lines 100-126: the broadcast, the line of an accepted
    one, and after that no signature, broadcast or such line. *)
Lemma send_trace (cfg : Config) (w3 : Node) (from_acct : account)
    (to_addr : address) (k : string) (gas : Z) (raw : string) (n : Z) (s : state) :
  nonces s !! k = Some n ->
  exists tail,
    out (snd (send cfg w3 from_acct to_addr k gas raw s)) =
      out s ++ Send_raw_transaction raw ::
        match send_raw_transaction w3 raw with
        | Ok tx_hash =>
            Printed (Tx_submitted tx_hash (acct_address from_acct) to_addr n gas) :: tail
        | Raise _ => tail
        end /\
    List.filter (fun ev => is_sign ev || is_send_raw ev || is_submitted ev) tail = [].
Proof.
  intros Hn.
  assert (Herr : forall e s0, exists l,
             out (snd (on_send_error w3 from_acct k e s0)) = out s0 ++ l /\
             List.filter (fun ev => is_sign ev || is_send_raw ev || is_submitted ev) l = []).
  { intros e s0. rewrite on_send_error_eq. simpl.
    destruct (is_nonce_conflict (exn_str e)); [|by eexists].
    destruct (get_transaction_count w3 (acct_address from_acct) "pending");
      by eexists. }
  destruct (send_raw_transaction w3 raw) as [tx_hash|e] eqn:Hsend.
  - rewrite (send_accepted_eq cfg w3 _ _ _ _ _ _ _ _ Hsend Hn). cbv zeta.
    destruct (0 <? WAIT_FOR_CONFIRMATIONS cfg).
    + destruct (wait_for_transaction_receipt w3 tx_hash 120 2) as [rc|e].
      * eexists. simpl. rewrite <- app_assoc. split; reflexivity.
      * match goal with |- context [on_send_error w3 from_acct k e ?st] =>
          destruct (Herr e st) as (l & Hl & Hf) end.
        destruct (exn_cls e);
          try (exists (Wait_for_transaction_receipt tx_hash 120 2 :: l);
               rewrite Hl; simpl; rewrite <- !app_assoc; split; [reflexivity|exact Hf]).
        eexists. simpl. rewrite <- app_assoc. split; reflexivity.
    + exists []. simpl. split; reflexivity.
  - rewrite (send_refused cfg w3 _ _ _ _ _ _ _ Hsend).
    destruct (Herr e (logged s [Send_raw_transaction raw])) as (l & Hl & Hf).
    exists l. rewrite Hl. simpl. by rewrite <- app_assoc.
Qed.
(** X1.  An exception leaves [build_and_send] only from the lines before
    the [try] of line 100: it is the exception of the preparation, no
    broadcast was attempted and the counters are as before. *)
Theorem exception_means_nothing_broadcast (cfg : Config) (w3 : Node)
    (from_acct : account) (to_addr : address) (k : string) (s : state) (e : exn) :
  fst (build_and_send cfg w3 from_acct to_addr k s) = Raise e ->
  build_and_sign cfg w3 from_acct to_addr k s =
    (Raise e, snd (build_and_send cfg w3 from_acct to_addr k s)) /\
  nonces (snd (build_and_send cfg w3 from_acct to_addr k s)) = nonces s /\
  exists new,
    events_since s (snd (build_and_send cfg w3 from_acct to_addr k s)) new /\
    List.filter is_send_raw new = [].
Proof.
  rewrite build_and_send_eq.
  destruct (build_and_sign_trace cfg w3 from_acct to_addr k s)
    as (pre & Hpre & [[Heq Hno]|(tx & _ & _ & _ & _ & Heq)]).
  - rewrite Heq.
    destruct (fst (build_and_sign cfg w3 from_acct to_addr k s)) as [[tx raw]|e'].
    + by destruct (Hno tx raw).
    + simpl. intros H. injection H as ->. repeat split. exists pre.
      split; [reflexivity|]. by apply (estimation_filter _ _ estimation_no_send_raw).
  - rewrite Heq.
    destruct (sign_transaction cfg tx (acct_key from_acct)) as [raw|e'].
    + intros H.
      destruct (send_returns cfg w3 from_acct to_addr k (tx_gas tx) raw
                  (logged s (pre ++ [Sign_transaction tx (acct_key from_acct)])))
        as [r Hr].
      rewrite Hr in H. discriminate H.
    + simpl. intros H. injection H as ->. repeat split.
      exists (pre ++ [Sign_transaction tx (acct_key from_acct)]).
      split; [reflexivity|].
      by rewrite List.filter_app, (estimation_filter _ _ estimation_no_send_raw Hpre).
Qed.

(** The signer raises: the exception reaches the caller and nothing is
    broadcast. *)
Lemma exception_means_nothing_broadcast_witness :
  let cfg := {| acct_a := alice; acct_b := bob; amount_wei := Ok 1;
                WAIT_FOR_CONFIRMATIONS := 1;
                sign_transaction := fun _ _ => Raise (rpc_error "bad key") |} in
  let r := build_and_send cfg healthy alice (acct_address bob) "A" started in
  fst r = Raise (rpc_error "bad key") /\
  nonces (snd r) = nonces started /\
  List.filter is_send_raw (out (snd r)) = [].
Proof.
  cbv zeta.
  destruct (exception_means_nothing_broadcast
              {| acct_a := alice; acct_b := bob; amount_wei := Ok 1;
                 WAIT_FOR_CONFIRMATIONS := 1;
                 sign_transaction := fun _ _ => Raise (rpc_error "bad key") |}
              healthy alice (acct_address bob) "A" started (rpc_error "bad key") eq_refl)
    as (_ & Hn & _).
  split; [reflexivity|]. split; [exact Hn|reflexivity].
Defined.



(** X3.  One call signs at most one transaction and broadcasts at most
    once, and only what the signer returned for that transaction: its
    recipient, amount, chain id and nonce are the argument, the configured
    amount, the node's chain id and the stored counter; the line of an
    accepted broadcast shows that nonce and the gas limit that was signed. *)
Theorem one_signature_one_broadcast (cfg : Config) (w3 : Node)
    (from_acct : account) (to_addr : address) (k : string) (s : state) :
  exists new,
    events_since s (snd (build_and_send cfg w3 from_acct to_addr k s)) new /\
    (List.filter (fun ev => is_sign ev || is_send_raw ev || is_submitted ev) new = []
     \/
     exists tx,
       amount_wei cfg = Ok (tx_value tx) /\
       nonces s !! k = Some (tx_nonce tx) /\
       chain_id w3 = Ok (tx_chainId tx) /\
       tx_to tx = to_addr /\
       List.filter (fun ev => is_sign ev || is_send_raw ev || is_submitted ev) new =
         Sign_transaction tx (acct_key from_acct) ::
         match sign_transaction cfg tx (acct_key from_acct) with
         | Raise _ => []
         | Ok raw =>
             Send_raw_transaction raw ::
             match send_raw_transaction w3 raw with
             | Raise _ => []
             | Ok tx_hash =>
                 [Printed (Tx_submitted tx_hash (acct_address from_acct) to_addr
                                      (tx_nonce tx) (tx_gas tx))]
             end
         end).
Proof.
  set (f := fun ev => is_sign ev || is_send_raw ev || is_submitted ev).
  assert (Hf : forall ev, is_estimation ev = true -> f ev = false).
  { intros ev Hev. unfold f.
    by rewrite (estimation_no_sign ev Hev), (estimation_no_send_raw ev Hev),
      (estimation_no_submitted ev Hev). }
  rewrite build_and_send_eq.
  destruct (build_and_sign_trace cfg w3 from_acct to_addr k s)
    as (pre & Hpre & [[Heq Hno]|(tx & Ha & Hn & Hc & Hto & Heq)]).
  - rewrite Heq.
    destruct (fst (build_and_sign cfg w3 from_acct to_addr k s)) as [[tx raw]|e].
    + by destruct (Hno tx raw).
    + exists pre. split; [reflexivity|]. left. by apply estimation_filter.
  - rewrite Heq.
    destruct (sign_transaction cfg tx (acct_key from_acct)) as [raw|e] eqn:Hsig.
    + destruct (send_trace cfg w3 from_acct to_addr k (tx_gas tx) raw (tx_nonce tx)
                  (logged s (pre ++ [Sign_transaction tx (acct_key from_acct)])) Hn)
        as (tail & Hout & Htail).
      eexists. split.
      * unfold events_since. rewrite Hout. simpl. rewrite <- app_assoc. reflexivity.
      * right. exists tx. repeat split; try done.
        rewrite !List.filter_app, (estimation_filter f pre Hf Hpre), Hsig. subst f. simpl.
        destruct (send_raw_transaction w3 raw); simpl; by rewrite Htail.
    + exists (pre ++ [Sign_transaction tx (acct_key from_acct)]).
      split; [reflexivity|]. right. exists tx. repeat split; try done.
      by rewrite List.filter_app, (estimation_filter f pre Hf Hpre), Hsig.
Qed.
(** ** The keys of the counters *)

Lemma cycle_effect_counters (addr : address) (k : string) (s s' : state) :
  cycle_effect addr k s s' ->
  nonces s' = nonces s \/ exists v, nonces s' = <[k := v]> (nonces s).
Proof.
  intros [new E Hq Hn|pre current post E Hpre Hpost Hn
         |pre ev n post E Hacc Hpre Hpost Hk Hn
         |pre ev n mid current post E Hacc Hpre Hmid Hpost Hk Hn]; eauto.
Qed.


(** [build_and_send] never adds a key to [nonces] and never removes one. *)
Lemma build_and_send_dom (cfg : Config) (w3 : Node) (from_acct : account)
    (to_addr : address) (k : string) (s : state) :
  dom (nonces (snd (build_and_send cfg w3 from_acct to_addr k s))) = dom (nonces s).
Proof.
  rewrite build_and_send_eq.
  pose proof (build_and_sign_frame cfg w3 from_acct to_addr k s) as Hf.
  pose proof (build_and_sign_ok cfg w3 from_acct to_addr k s) as Hok.
  destruct (build_and_sign cfg w3 from_acct to_addr k s) as [[[tx raw]|e] s1];
    simpl in Hf; [|simpl; by rewrite Hf].
  destruct (Hok tx raw eq_refl) as (_ & Hn & _). rewrite <- Hf in Hn.
  cbv beta iota.
  destruct (cycle_effect_counters _ _ _ _
              (send_effect cfg w3 from_acct to_addr k (tx_gas tx) raw (tx_nonce tx) s1 Hn))
    as [E|[v E]]; rewrite E.
  - by rewrite Hf.
  - rewrite dom_insert_lookup_L; [by rewrite Hf|]. by rewrite Hn.
Qed.

Lemma main_loop_from_dom (cfg : Config) (w3s : list Node) (turn : Z) (s : state) :
  dom (nonces (snd (main_loop_from cfg w3s turn s))) = dom (nonces s).
Proof.
  revert turn s. induction w3s as [|w3 rest IH]; intros turn s; [done|].
  cbn [main_loop_from]. rewrite main_loop_body_eq.
  destruct (direction cfg turn) as [[send_from to] nkey]. cbv beta iota zeta.
  rewrite IH. simpl. apply build_and_send_dom.
Qed.

(** X4.  When the process reaches the loop, [nonces] holds exactly the
    keys "A" and "B" after any number of cycles, whatever the node
    answered: no cycle can fail for a missing counter. *)
Theorem counters_keep_their_keys (cfg : Config) (w3_0 : Node) (w3s : list Node)
    (turn : Z) :
  fst (run cfg w3_0 w3s) = Ok turn ->
  dom (nonces (snd (run cfg w3_0 w3s))) = {["A"; "B"]} /\
  turn = Z.of_nat (List.length w3s).
Proof.
  unfold run, startup, get_initial_nonces. unfold_m. simpl.
  destruct (get_transaction_count w3_0 (acct_address (acct_a cfg)) "pending") as [na|];
    [|discriminate]. simpl.
  destruct (get_transaction_count w3_0 (acct_address (acct_b cfg)) "pending") as [nb|];
    [|discriminate]. simpl.
  unfold main_loop.
  match goal with |- context [main_loop_from cfg w3s 0 ?s0] =>
    pose proof (main_loop_from_dom cfg w3s 0 s0) as Hdom;
    pose proof (main_loop_from_turn cfg w3s 0 s0) as Hturn;
    destruct (main_loop_from cfg w3s 0 s0) as [turn' s'] end.
  simpl in *. intros H. injection H as <-. split; [|lia].
  rewrite Hdom, !dom_insert_L, dom_empty_L. set_solver.
Qed.

(** Three cycles, one of them refused and one without fee data. *)
Lemma counters_keep_their_keys_witness :
  let r := run (config 1) healthy [refusing "nonce too low" (Ok 9); fee_down; healthy] in
  fst r = Ok 3 /\ dom (nonces (snd r)) = {["A"; "B"]}.
Proof.
  cbv zeta. split; [reflexivity|].
  apply (counters_keep_their_keys (config 1) healthy
           [refusing "nonce too low" (Ok 9); fee_down; healthy] 3 eq_refl).
Defined.

(** ** A start that fails *)

(** X9.  When one of the two initial queries of the transaction count
    raises, the process ends with that exception before the loop: nothing
    was stored, and nothing happened but those queries. *)
Theorem failed_start_ends_process (cfg : Config) (w3_0 : Node) (w3s : list Node)
    (e : exn) :
  get_transaction_count w3_0 (acct_address (acct_a cfg)) "pending" = Raise e \/
  (exists na,
      get_transaction_count w3_0 (acct_address (acct_a cfg)) "pending" = Ok na /\
      get_transaction_count w3_0 (acct_address (acct_b cfg)) "pending" = Raise e) ->
  fst (run cfg w3_0 w3s) = Raise e /\
  nonces (snd (run cfg w3_0 w3s)) = ∅ /\
  forallb is_count_query (out (snd (run cfg w3_0 w3s))) = true.
Proof.
  unfold run, startup, get_initial_nonces. unfold_m. simpl.
  intros [->|(na & -> & H)]; [done|]. simpl. by rewrite H.
Qed.

Lemma failed_start_ends_process_witness :
  let down := node (Raise (rpc_error "503")) (Raise (rpc_error "503")) (Ok 10) (Ok 1)
                   (Ok 100000) (Ok "0xabc") mined in
  get_transaction_count down "0xA11CE" "pending" = Raise (rpc_error "503") /\
  run (config 1) down [healthy; healthy] =
    (Raise (rpc_error "503"),
     {| nonces := ∅; out := [Get_transaction_count "0xA11CE" "pending"] |}).
Proof.
  cbv zeta. split; [reflexivity|].
  destruct (failed_start_ends_process (config 1)
              (node (Raise (rpc_error "503")) (Raise (rpc_error "503")) (Ok 10) (Ok 1)
                    (Ok 100000) (Ok "0xabc") mined)
              [healthy; healthy] (rpc_error "503") (or_introl eq_refl)) as (H & _).
  reflexivity.
Defined.
(** ** Counting the accepted broadcasts *)

Lemma accepted_count_app (addr : address) (l1 l2 : list event) :
  accepted_count addr (l1 ++ l2) = accepted_count addr l1 + accepted_count addr l2.
Proof.
  unfold accepted_count. rewrite List.filter_app, List.length_app. lia.
Qed.

Lemma accepted_count_quiet (addr : address) (l : list event) :
  forallb quiet l = true -> accepted_count addr l = 0.
Proof.
  unfold accepted_count. induction l as [|ev l IH]; [done|]. simpl.
  rewrite andb_true_iff. intros [Hev Hl].
  assert (is_accepted_of addr ev = false) as ->.
  { destruct ev as [| | | | | | | | |ln|]; try done. by destruct ln. }
  by apply IH.
Qed.

Lemma accepted_count_reset (addr a : address) (v : Z) (l : list event) :
  accepted_count addr (Printed (Nonce_reset a v) :: l) = accepted_count addr l.
Proof. reflexivity. Qed.

Lemma accepted_count_accepted (addr a : address) (n : Z) (ev : event) (l : list event) :
  accepted a n ev ->
  accepted_count addr (ev :: l) =
    (if String.eqb a addr then 1 else 0) + accepted_count addr l.
Proof.
  intros (h & to & g & ->). unfold accepted_count. simpl.
  destruct (String.eqb a addr); simpl; lia.
Qed.

Section Accounting.

Variable cfg : Config.
Hypothesis distinct : acct_address (acct_a cfg) <> acct_address (acct_b cfg).

(** A cycle of one paired account keeps the account of every paired
    account. *)
Lemma cycle_keeps_account (addr addr' : address) (k k' : string) (start : Z)
    (s s' : state) :
  paired cfg addr k -> paired cfg addr' k' ->
  cycle_effect addr k s s' ->
  counter_accounts addr' k' start s -> counter_accounts addr' k' start s'.
Proof.
  intros Hp Hp' Heff Hacc Hnr.
  assert (Hkey : k' = k -> addr' = addr).
  { intros ->. by apply (paired_addr cfg addr' addr k). }
  assert (Haddr : addr' = addr -> k' = k).
  { intros ->. by apply (paired_key cfg distinct addr k' k). }
  destruct Heff as [new E Hq Hn|pre current post E Hpre Hpost Hn
                   |pre ev n post E Hev Hpre Hpost Hk Hn
                   |pre ev n mid current post E Hev Hpre Hmid Hpost Hk Hn];
    unfold events_since in E; rewrite E in *;
    apply no_reset_app in Hnr as [Hnr Hnew]; specialize (Hacc Hnr);
    rewrite accepted_count_app.
  - rewrite Hn, Hacc, (accepted_count_quiet _ _ Hq). f_equal. lia.
  - assert (Hne : addr' <> addr).
    { intros ->. apply (Hnew current). apply elem_of_app. right. by left. }
    rewrite Hn, lookup_insert_ne by (intros <-; by apply Hne, Hkey).
    rewrite Hacc, accepted_count_app, accepted_count_reset,
      (accepted_count_quiet _ _ Hpre), (accepted_count_quiet _ _ Hpost).
    f_equal. lia.
  - rewrite accepted_count_app, (accepted_count_accepted _ _ _ _ _ Hev),
      (accepted_count_quiet _ _ Hpre), (accepted_count_quiet _ _ Hpost).
    destruct (String.eqb_spec addr addr') as [<-|Hne].
    + rewrite (Haddr eq_refl) in *. rewrite Hn, lookup_insert_eq.
      rewrite Hk in Hacc. injection Hacc as ->. f_equal. lia.
    + rewrite Hn, lookup_insert_ne by (intros <-; by apply Hne; symmetry; apply Hkey).
      rewrite Hacc. f_equal. lia.
  - assert (Hne : addr' <> addr).
    { intros ->. apply (Hnew current). apply elem_of_app. right. right.
      apply elem_of_app. right. by left. }
    rewrite Hn, lookup_insert_ne by (intros <-; by apply Hne, Hkey).
    rewrite accepted_count_app, (accepted_count_accepted _ _ _ _ _ Hev),
      accepted_count_app, accepted_count_reset,
      (accepted_count_quiet _ _ Hpre), (accepted_count_quiet _ _ Hmid),
      (accepted_count_quiet _ _ Hpost).
    destruct (String.eqb_spec addr addr') as [<-|_]; [done|].
    rewrite Hacc. f_equal. lia.
Qed.

Lemma main_loop_from_keeps_account (addr' : address) (k' : string) (start : Z)
    (w3s : list Node) (turn : Z) (s : state) :
  paired cfg addr' k' ->
  counter_accounts addr' k' start s ->
  counter_accounts addr' k' start (snd (main_loop_from cfg w3s turn s)).
Proof.
  intros Hp'. revert turn s. induction w3s as [|w3 rest IH]; intros turn s Hacc; [done|].
  cbn [main_loop_from].
  pose proof (main_loop_body_effect cfg w3 turn s) as Heff.
  pose proof (direction_paired cfg turn) as Hp.
  destruct (direction cfg turn) as [[send_from to] nkey] eqn:Hdir.
  pose proof (cycle_keeps_account _ _ _ _ start _ _ Hp Hp' Heff Hacc) as Hacc'.
  rewrite main_loop_body_eq in *. rewrite Hdir in *. cbv beta iota zeta in *.
  by apply IH.
Qed.

End Accounting.

(** X8.  With the two accounts at different addresses and a start that
    stored [na] and [nb], at any point of the loop the counter of an account
    whose counter was never reset is its start value plus the number of its
    accepted broadcasts. *)
Theorem counter_counts_accepted (cfg : Config) (w3_0 : Node) (w3s : list Node)
    (na nb : Z) :
  acct_address (acct_a cfg) <> acct_address (acct_b cfg) ->
  get_transaction_count w3_0 (acct_address (acct_a cfg)) "pending" = Ok na ->
  get_transaction_count w3_0 (acct_address (acct_b cfg)) "pending" = Ok nb ->
  let s' := snd (run cfg w3_0 w3s) in
  (no_reset (acct_address (acct_a cfg)) (out s') ->
   nonces s' !! "A" = Some (na + accepted_count (acct_address (acct_a cfg)) (out s'))) /\
  (no_reset (acct_address (acct_b cfg)) (out s') ->
   nonces s' !! "B" = Some (nb + accepted_count (acct_address (acct_b cfg)) (out s'))).
Proof.
  intros Hdist Ha Hb. unfold run, startup, get_initial_nonces. unfold_m. simpl.
  rewrite Ha. simpl. rewrite Hb. simpl. unfold main_loop.
  match goal with |- context [main_loop_from cfg w3s 0 ?s0] =>
    pose proof (main_loop_from_keeps_account cfg Hdist (acct_address (acct_a cfg)) "A"
                  na w3s 0 s0 (or_introl (conj eq_refl eq_refl))) as HA;
    pose proof (main_loop_from_keeps_account cfg Hdist (acct_address (acct_b cfg)) "B"
                  nb w3s 0 s0 (or_intror (conj eq_refl eq_refl))) as HB;
    destruct (main_loop_from cfg w3s 0 s0) as [turn s'] end.
  simpl in *. split.
  - apply HA. intros _. simpl. rewrite lookup_insert_eq. f_equal.
    unfold accepted_count. simpl. lia.
  - apply HB. intros _. simpl. rewrite lookup_insert_ne by done.
    rewrite lookup_insert_eq. f_equal. unfold accepted_count. simpl. lia.
Qed.

(** Three cycles against [healthy]: A broadcast twice, B once. *)
Lemma counter_counts_accepted_witness :
  let s' := snd (run (config 1) healthy [healthy; healthy; healthy]) in
  acct_address alice <> acct_address bob /\
  accepted_count "0xA11CE" (out s') = 2 /\
  nonces s' !! "A" = Some (7 + 2) /\
  nonces s' !! "B" = Some (7 + 1).
Proof.
  cbv zeta.
  assert (Hdist : acct_address alice <> acct_address bob) by discriminate.
  destruct (counter_counts_accepted (config 1) healthy [healthy; healthy; healthy] 7 7
              Hdist eq_refl eq_refl) as [HA HB].
  split; [exact Hdist|]. split; [reflexivity|]. split.
  - rewrite HA; [reflexivity|]. apply no_reset_filter. reflexivity.
  - rewrite HB; [reflexivity|]. apply no_reset_filter. reflexivity.
Defined.
(** ** From one cycle of a direction to the next *)





(** ** The pause after every cycle *)


(** ** The margins in the transaction *)

(** X5.  For every estimate [0 <= e < 2^1000] the gas limit of the signed
    transaction is computed from the estimate, without the fallback: it is
    never below the estimate and never more than a fifth above it. *)
Theorem gas_limit_margin (cfg : Config) (w3 : Node) (from_acct : account)
    (to_addr : address) (k : string) (s : state) (tx : transaction) (raw : string)
    (estimated : Z) :
  fst (build_and_sign cfg w3 from_acct to_addr k s) = Ok (tx, raw) ->
  estimate_gas w3 {| call_to := to_addr; call_value := tx_value tx;
                     call_nonce := tx_nonce tx; call_chainId := tx_chainId tx;
                     call_from := acct_address from_acct |} = Ok estimated ->
  0 <= estimated < 2 ^ 1000 ->
  floor_times_1_1 estimated = Ok (tx_gas tx) /\
  estimated <= tx_gas tx /\ 10 * tx_gas tx <= 12 * estimated.
Proof.
  intros H Hest He.
  destruct (build_and_sign_ok cfg w3 from_acct to_addr k s tx raw H)
    as (_ & _ & _ & _ & Hg & _).
  specialize (Hg s). rewrite gas_limit_for_eq, Hest in Hg.
  destruct (floor_times_1_1_margin estimated He) as (g & Eg & Hlo & Hhi).
  rewrite Eg in *. injection Hg as <-. done.
Qed.

Lemma gas_limit_margin_witness :
  estimate_gas healthy request = Ok 100000 /\
  exists tx raw,
    fst (build_and_sign (config 1) healthy alice (acct_address bob) "A" started) =
      Ok (tx, raw) /\
    100000 <= tx_gas tx /\ 10 * tx_gas tx <= 12 * 100000.
Proof.
  split; [reflexivity|].
  exists {| tx_to := acct_address bob; tx_value := 10000000000000000; tx_nonce := 7;
            tx_chainId := 1; tx_gas := 110000; tx_fee := Eip1559 10 260 |}, "0xf86b".
  split; [reflexivity|].
  destruct (gas_limit_margin (config 1) healthy alice (acct_address bob) "A" started
              _ "0xf86b" 100000 eq_refl eq_refl) as (_ & Hlo & Hhi).
  - split; [lia|reflexivity].
  - split; [exact Hlo|exact Hhi].
Defined.

(** X6.  On a block with a base fee [0 <= b < 2^1000] the fee estimator
    returns a dynamic-fee pair, and the max fee exceeds the priority fee by
    at least twice and at most three times the base fee; in particular it
    is never below the priority fee. *)
Theorem max_fee_margin (w3 : Node) (latest : block) (base_fee : Z) (s : state) :
  get_block w3 "latest" = Ok latest ->
  baseFeePerGas latest = Some base_fee ->
  0 <= base_fee < 2 ^ 1000 ->
  exists max_fee,
    let priority :=
      match max_priority_fee w3 with Ok p => p | Raise _ => 2000000000 end in
    fst (compute_fee_values w3 s) = Ok (Eip1559 priority max_fee) /\
    2 * base_fee + priority <= max_fee <= 3 * base_fee + priority.
Proof.
  intros Hb Hsome Hrange. rewrite compute_fee_values_eq, Hb, Hsome.
  destruct (int_times_2_5_margin base_fee Hrange) as (v & -> & Hv).
  cbv zeta.
  destruct (max_priority_fee w3) as [p|]; eexists;
    (split; [reflexivity|unfold two_gwei; lia]).
Qed.

Lemma max_fee_margin_witness :
  get_block huge_base_fee "latest" = Ok {| baseFeePerGas := Some 1801439850948199 |} /\
  exists max_fee,
    fst (compute_fee_values huge_base_fee started) = Ok (Eip1559 10 max_fee) /\
    2 * 1801439850948199 + 10 <= max_fee <= 3 * 1801439850948199 + 10.
Proof.
  split; [reflexivity|].
  destruct (max_fee_margin huge_base_fee {| baseFeePerGas := Some 1801439850948199 |}
              1801439850948199 started eq_refl eq_refl) as (max_fee & H).
  - split; [lia|reflexivity].
  - by exists max_fee.
Defined.

(** ** The classification of error texts *)









(** ** Loading the module *)



(** X13.  The loop is entered only when the three settings are present and
    not empty, the node is connected, both keys load and both initial
    queries return; the configuration then holds the two loaded accounts,
    the parsed wait count and the amount of AMOUNT_ETH (0.01 when unset),
    the counters are the two values returned, and the process is [run]. *)
Theorem loaded_means_ready (env : Environ) (lib : Library) (w3 : Node)
    (cfg : Config) (s : state) :
  load_module env lib w3 = Loaded cfg s ->
  exists url pk_a pk_b na nb,
    env_RPC_URL env = Some url /\ url <> "" /\
    env_PRIVATE_KEY_A env = Some pk_a /\ pk_a <> "" /\
    env_PRIVATE_KEY_B env = Some pk_b /\ pk_b <> "" /\
    is_connected lib url = true /\
    from_key lib pk_a = Ok (acct_a cfg) /\
    from_key lib pk_b = Ok (acct_b cfg) /\
    int_of_str lib (getenv_or (env_WAIT_FOR_CONFIRMATIONS env) "1") =
      Ok (WAIT_FOR_CONFIRMATIONS cfg) /\
    amount_wei cfg = to_wei_ether lib (getenv_or (env_AMOUNT_ETH env) "0.01") /\
    get_transaction_count w3 (acct_address (acct_a cfg)) "pending" = Ok na /\
    get_transaction_count w3 (acct_address (acct_b cfg)) "pending" = Ok nb /\
    nonces s = <["A" := na]> (<["B" := nb]> ∅) /\
    forall w3s, snd (run cfg w3 w3s) = snd (main_loop cfg w3s s).
Proof.
  unfold load_module.
  destruct (float_of_str lib _) as [u1|]; [|discriminate].
  destruct (float_of_str lib _) as [u2|]; [|discriminate].
  destruct (int_of_str lib _) as [wait|] eqn:Hwait; [|discriminate].
  destruct (env_RPC_URL env) as [url|]; [|discriminate].
  destruct (env_PRIVATE_KEY_A env) as [pk_a|]; [|discriminate].
  destruct (env_PRIVATE_KEY_B env) as [pk_b|]; [|discriminate].
  destruct (is_falsy (Some url) || is_falsy (Some pk_a) || is_falsy (Some pk_b))
    eqn:Hfalsy; [discriminate|].
  apply orb_false_iff in Hfalsy as [Hfalsy Hb]. apply orb_false_iff in Hfalsy as [Hu Ha].
  destruct (is_connected lib url) eqn:Hcon; [|discriminate]. simpl.
  destruct (from_key lib pk_a) as [acc_a|] eqn:Hka; [|discriminate].
  destruct (from_key lib pk_b) as [acc_b|] eqn:Hkb; [|discriminate].
  cbv zeta.
  match goal with |- context [startup ?c w3 ?s0] =>
    set (cfg0 := c); destruct (startup cfg0 w3 s0) as [[u|e] s1] eqn:Hstart end;
    [|discriminate].
  intros H. injection H as <- <-.
  revert Hstart. unfold startup, get_initial_nonces. unfold_m. simpl.
  destruct (get_transaction_count w3 (acct_address acc_a) "pending") as [na|] eqn:Hna;
    [|discriminate]. simpl.
  destruct (get_transaction_count w3 (acct_address acc_b) "pending") as [nb|] eqn:Hnb;
    [|discriminate]. simpl.
  intros Hstart. injection Hstart as _ Hs1.
  exists url, pk_a, pk_b, na, nb.
  repeat split; try done.
  - by intros ->.
  - by intros ->.
  - by intros ->.
  - by subst s1.
  - intros w3s. unfold run, startup, get_initial_nonces. unfold_m. simpl.
    rewrite Hna. simpl. rewrite Hnb. simpl. rewrite Hs1.
    by destruct (main_loop cfg0 w3s s1).
Qed.

Lemma loaded_means_ready_witness :
  exists cfg s,
    load_module (Launch.environ (Some "http://localhost:8545")) (Launch.library true)
                healthy = Loaded cfg s /\
    acct_a cfg = alice /\ acct_b cfg = bob /\ WAIT_FOR_CONFIRMATIONS cfg = 1 /\
    nonces s !! "A" = Some 7.
Proof.
  eexists _, _. split; [reflexivity|].
  destruct (loaded_means_ready (Launch.environ (Some "http://localhost:8545"))
              (Launch.library true) healthy _ _ eq_refl)
    as (url & pk_a & pk_b & na & nb & _ & _ & _ & _ & _ & _ & _ & _ & _ & _ & _ & _ & _
        & Hn & _).
  repeat split; try reflexivity.
Defined.
